(** * Robot path visualisation: loader, derived statistics and panels

    A shallow embedding of [robot_code/main.py].  Python floats and
    [np.float64] values are IEEE-754 binary64 numbers, modelled by Rocq's
    primitive [float]; Python integers are [Z]; the [dict] yielded by
    [csv.DictReader] is a [gmap]; exceptions are an explicit result type. *)

From Stdlib Require Import ZArith List Floats Lia Bool Ascii String Uint63.
From stdpp Require Import base option list gmap strings.

Local Open Scope Z_scope.

(** ** Exceptions *)

(** The exception classes the program can meet.  [FileNotFoundError] is the
    one [main] catches on its own; the others all fall under
    [except Exception]. *)
Inductive exn : Type :=
| FileNotFoundError (filename : string)
| OSError (filename : string)
| KeyError (key : string)
| ValueError
| TypeError
| IndexError.

Inductive result (A : Type) : Type :=
| Ok (a : A)
| Raise (e : exn).
Arguments Ok {A} a.
Arguments Raise {A} e.

Global Instance result_ret : MRet result := λ A a, Ok a.
Global Instance result_bind : MBind result :=
  λ A B f m, match m with Ok a => f a | Raise e => Raise e end.

(** ** Python sequence indexing *)

(** [a[i]] on a list or a one-dimensional array: a negative index counts
    from the end, an index out of range raises [IndexError]. *)
Definition getitem {A} (a : list A) (i : Z) : result A :=
  let n := Z.of_nat (length a) in
  let j := if i <? 0 then n + i else i in
  if (0 <=? j) && (j <? n) then
    match a !! Z.to_nat j with
    | Some v => Ok v
    | None => Raise IndexError
    end
  else Raise IndexError.

(** [range(0, n, skip)] for a positive [skip]; [fuel] bounds the number of
    indices, [n] is always enough. *)
Fixpoint range_from (fuel i n skip : nat) : list nat :=
  match fuel with
  | O => []
  | S fuel' => if (i <? n)%nat then i :: range_from fuel' (i + skip) n skip else []
  end.

Definition range (n skip : nat) : list nat := range_from n 0 n skip.

(** ** The NumPy operations the program calls *)

Module np.

(** [np.diff(a)] is [a[1:] - a[:-1]]. *)
Definition diff (a : list float) : list float :=
  zip_with PrimFloat.sub (drop 1 a) (take (length a - 1) a).

(** An elementwise binary operation on two one-dimensional arrays:
    equal shapes combine pointwise, a one-element array is broadcast,
    any other pair of shapes raises [ValueError]. *)
Definition broadcast (f : float → float → float) (a b : list float)
  : result (list float) :=
  if decide (length a = length b) then Ok (zip_with f a b)
  else match a, b with
       | [u], _ => Ok (map (f u) b)
       | _, [v] => Ok (map (λ u, f u v) a)
       | _, _ => Raise ValueError
       end.

(** [a ** 2] squares each element. *)
Definition square (a : list float) : list float :=
  map (λ v, PrimFloat.mul v v) a.

Definition sqrt (a : list float) : list float := map PrimFloat.sqrt a.

(** Pairwise summation, as NumPy's float add-reduction does it on a
    contiguous array: a plain loop under 8 elements, eight interleaved
    accumulators up to [PW_BLOCKSIZE], and a split in two halves (the
    first a multiple of 8) above. *)
Definition PW_BLOCKSIZE : nat := 128.

Definition sum_loop (res : float) (a : list float) : float :=
  foldl PrimFloat.add res a.

(** [r[j] += v] for each [v] in turn, [j] cycling through the eight
    accumulators. *)
Fixpoint accumulate (r : list float) (j : nat) (a : list float) : list float :=
  match a with
  | [] => r
  | v :: a' => accumulate (alter (λ s, PrimFloat.add s v) j r) (S j mod 8) a'
  end.

Definition acc (r : list float) (k : nat) : float := default 0%float (r !! k).

Definition block_sum (a : list float) : float :=
  let n := length a in
  let full := (n - n mod 8)%nat in
  let r := accumulate (take 8 a) 0 (drop 8 (take full a)) in
  let res :=
    PrimFloat.add
      (PrimFloat.add (PrimFloat.add (acc r 0) (acc r 1)) (PrimFloat.add (acc r 2) (acc r 3)))
      (PrimFloat.add (PrimFloat.add (acc r 4) (acc r 5)) (PrimFloat.add (acc r 6) (acc r 7))) in
  sum_loop res (drop full a).

Fixpoint pairwise_sum_rec (fuel : nat) (a : list float) : float :=
  let n := length a in
  if (n <? 8)%nat then sum_loop 0%float a
  else if (n <=? PW_BLOCKSIZE)%nat then block_sum a
  else match fuel with
       | O => block_sum a
       | S fuel' =>
           let n2 := (n / 2 - (n / 2) mod 8)%nat in
           PrimFloat.add (pairwise_sum_rec fuel' (take n2 a))
                         (pairwise_sum_rec fuel' (drop n2 a))
       end.

Definition pairwise_sum (a : list float) : float :=
  pairwise_sum_rec (length a) a.

(** [np.sum(a)]: the reduction starts from the identity [0.0].  The
    program only sums square roots of sums of squares, none of which is
    [-0.0], the one value on which the sign of an initial zero shows. *)
Definition sum (a : list float) : float :=
  PrimFloat.add 0%float (pairwise_sum a).

(** [np.array] of a list of Python floats: a float64 array of the same
    values. *)
Definition array_float (l : list float) : list float := l.

(** [np.array] of a list of Python ints.  NumPy gives each integer the
    first of int64, uint64 and object that holds it, and the array their
    common type: int64 when all fit int64, uint64 when none fits int64 and
    all fit uint64, object when some integer fits neither, and float64 when
    integers of the int64 kind and of the uint64 kind are mixed.  The model
    keeps the values of the array, which are integers in every case: the
    integers themselves, or in a float64 array the binary64 number nearest
    to each (ties to even). *)
Definition fits_int64 (z : Z) : bool := (- 2 ^ 63 <=? z) && (z <? 2 ^ 63).
Definition fits_uint64 (z : Z) : bool := (0 <=? z) && (z <? 2 ^ 64).

Definition spec_float_to_Z (u : spec_float) : Z :=
  match u with
  | S754_finite s m e =>
      cond_Zopp s (if 0 <=? e then Z.pos m * 2 ^ e else Z.pos m / 2 ^ (- e))
  | _ => 0
  end.

Definition float64_value (z : Z) : Z :=
  spec_float_to_Z (binary_normalize FloatOps.prec FloatOps.emax z 0 false).

Definition array_int (l : list Z) : list Z :=
  if forallb fits_int64 l then l
  else if negb (forallb (λ z, fits_int64 z || fits_uint64 z) l) then l
  else if forallb (λ z, negb (fits_int64 z)) l then l
  else map float64_value l.

(** [np.pi] and [np.deg2rad(x) = x * (pi / 180)]. *)
Definition pi : float := 0x1.921fb54442d18p+1%float.
Definition deg2rad (x : float) : float :=
  PrimFloat.mul x (PrimFloat.div pi 180%float).

(** [a[mask]] with a boolean mask: the mask must have the array's
    length. *)
Definition mask_select {A} (a : list A) (mask : list bool) : result (list A) :=
  if decide (length a = length mask)
  then Ok (fst <$> filter (λ p, p.2 = true) (zip a mask))
  else Raise IndexError.

End np.

(** ** The telemetry loader *)

(** The input file, as [open] and [csv.reader] present it: a path that does
    not exist, a path that cannot be opened for another reason, or the
    records of the file, one list of fields per line (a blank line is the
    empty record). *)
Inductive file : Type :=
| Missing
| Unreadable
| Readable (records : list (list string)).

Definition filesystem : Type := string → file.

Definition open (fs : filesystem) (filename : string) : result (list (list string)) :=
  match fs filename with
  | Missing => Raise (FileNotFoundError filename)
  | Unreadable => Raise (OSError filename)
  | Readable records => Ok records
  end.

(** A row as [csv.DictReader] yields it: a [dict] from column name to field;
    the value [None] is the [restval] of a column the record is too short
    for.  (The [restkey] entry of an over-long record has the key [None],
    which no string looks up; it is left out.) *)
Definition row : Type := gmap string (option string).

Module csv.

(** [dict(zip(fieldnames, record))] followed by the [restval] fill: a later
    binding of a repeated column name replaces an earlier one. *)
Definition make_row (fieldnames record : list string) : row :=
  let d := foldl (λ (d : row) kv, <[kv.1 := Some kv.2]> d) ∅ (zip fieldnames record) in
  if (length record <? length fieldnames)%nat
  then foldl (λ (d : row) key, <[key := None]> d) d (drop (length record) fieldnames)
  else d.

(** The reader passes over blank records. *)
Definition data_records (records : list (list string)) : list (list string) :=
  filter (λ record, record ≠ []) records.

(** The first record gives the field names; every later record that is not
    blank becomes a row. *)
Definition DictReader (records : list (list string)) : list row :=
  match records with
  | [] => []
  | fieldnames :: rest => make_row fieldnames <$> data_records rest
  end.

End csv.

(** [row[key]] raises [KeyError] for an absent key. *)
Definition row_getitem (r : row) (key : string) : result (option string) :=
  match r !! key with
  | Some v => Ok v
  | None => Raise (KeyError key)
  end.

(** The six sequences the loader fills, and the arrays it returns: of an
    array the values are kept, in order. *)
Record series : Type := Series {
  data_time : list float;
  data_x : list float;
  data_y : list float;
  data_theta : list float;
  data_light : list Z;
  data_distance : list Z
}.

Definition empty_series : series := Series [] [] [] [] [] [].

(** [time_data.append(t)] and its five siblings. *)
Definition time_data_append (acc : series) (t : float) : series :=
  Series (data_time acc ++ [t]) (data_x acc) (data_y acc)
         (data_theta acc) (data_light acc) (data_distance acc).
Definition x_data_append (acc : series) (x : float) : series :=
  Series (data_time acc) (data_x acc ++ [x]) (data_y acc)
         (data_theta acc) (data_light acc) (data_distance acc).
Definition y_data_append (acc : series) (y : float) : series :=
  Series (data_time acc) (data_x acc) (data_y acc ++ [y])
         (data_theta acc) (data_light acc) (data_distance acc).
Definition theta_data_append (acc : series) (th : float) : series :=
  Series (data_time acc) (data_x acc) (data_y acc)
         (data_theta acc ++ [th]) (data_light acc) (data_distance acc).
Definition light_data_append (acc : series) (l : Z) : series :=
  Series (data_time acc) (data_x acc) (data_y acc)
         (data_theta acc) (data_light acc ++ [l]) (data_distance acc).
Definition distance_data_append (acc : series) (d : Z) : series :=
  Series (data_time acc) (data_x acc) (data_y acc)
         (data_theta acc) (data_light acc) (data_distance acc ++ [d]).

Section Loader.

(** The builtins [float] and [int] on a string: [None] stands for the
    [ValueError] of a malformed literal. *)
Variable str_to_float : string → option float.
Variable str_to_int : string → option Z.

Definition py_float (v : option string) : result float :=
  match v with
  | None => Raise TypeError
  | Some s => match str_to_float s with
              | Some f => Ok f
              | None => Raise ValueError
              end
  end.

Definition py_int (v : option string) : result Z :=
  match v with
  | None => Raise TypeError
  | Some s => match str_to_int s with
              | Some z => Ok z
              | None => Raise ValueError
              end
  end.

(** One turn of the loop of [read_path_data]: a look-up, a conversion and
    an append per column, in the order of the source. *)
Definition append_row (acc : series) (r : row) : result series :=
  t ← row_getitem r "Time" ≫= py_float;
  let acc := time_data_append acc t in
  x ← row_getitem r "X" ≫= py_float;
  let acc := x_data_append acc x in
  y ← row_getitem r "Y" ≫= py_float;
  let acc := y_data_append acc y in
  th ← row_getitem r "Theta" ≫= py_float;
  let acc := theta_data_append acc th in
  l ← row_getitem r "Light" ≫= py_int;
  let acc := light_data_append acc l in
  d ← row_getitem r "Dist" ≫= py_int;
  Ok (distance_data_append acc d).

Fixpoint append_rows (acc : series) (rows : list row) : result series :=
  match rows with
  | [] => Ok acc
  | r :: rows' => acc' ← append_row acc r; append_rows acc' rows'
  end.

(** The dictionary of arrays [read_path_data] returns. *)
Definition to_arrays (acc : series) : series :=
  Series (np.array_float (data_time acc)) (np.array_float (data_x acc))
         (np.array_float (data_y acc)) (np.array_float (data_theta acc))
         (np.array_int (data_light acc)) (np.array_int (data_distance acc)).

Definition read_path_data (fs : filesystem) (filename : string) : result series :=
  records ← open fs filename;
  acc ← append_rows empty_series (csv.DictReader records);
  Ok (to_arrays acc).

End Loader.

(** ** Derived statistics *)

(** A Python number: the guard of [avg_speed] yields the integer [0], the
    division a float. *)
Inductive pynum : Type :=
| PyInt (z : Z)
| PyFloat (f : float).

Record statistics : Type := Statistics {
  total_distance : float;
  total_time : float;
  avg_speed : pynum
}.

(** The per-segment lengths, [np.sqrt(dx ** 2 + dy ** 2)]. *)
Definition distances (xs ys : list float) : result (list float) :=
  let dx := np.diff xs in
  let dy := np.diff ys in
  sq ← np.broadcast PrimFloat.add (np.square dx) (np.square dy);
  Ok (np.sqrt sq).

(** The six lines that compute path length, elapsed time and average speed
    in [plot_robot_path]. *)
Definition path_statistics (data : series) : result statistics :=
  ds ← distances (data_x data) (data_y data);
  let total_distance := np.sum ds in
  t_last ← getitem (data_time data) (-1);
  t_first ← getitem (data_time data) 0;
  let total_time := PrimFloat.div (PrimFloat.sub t_last t_first) 1000%float in
  let avg_speed :=
    if PrimFloat.ltb 0%float total_time
    then PyFloat (PrimFloat.div total_distance total_time)
    else PyInt 0 in
  Ok (Statistics total_distance total_time avg_speed).

(** ** What the renderers hand to the plotting library *)

Record arrow : Type := Arrow {
  arrow_x : float;
  arrow_y : float;
  arrow_dx : float;
  arrow_dy : float
}.

(** The statistics panel's text block, before formatting. *)
Record stats_text : Type := StatsText {
  data_points : nat;
  stats : statistics;
  x_min : float; x_max : float;
  y_min : float; y_max : float;
  average_light : float;
  final_distance : Z
}.

(** One drawing call.  [Line] is [plot] of two float arrays, [LineInt] of a
    float array against an integer array, [Marker] is [plot] of a single
    labelled point, [Scatter] carries the per-point colour values when the
    call has [c=data['light']]. *)
Inductive artist : Type :=
| Line (xs ys : list float)
| LineInt (xs : list float) (ys : list Z)
| Marker (label : string) (x y : float)
| ArrowPatch (a : arrow)
| Scatter (xs ys : list float) (c : option (list Z))
| Text (t : stats_text).

Definition panel : Type := list artist.

(** [plot(xs, ys)] and [scatter(xs, ys, c=...)] refuse arrays of different
    sizes with [ValueError]. *)
Definition plot (xs ys : list float) : result artist :=
  if decide (length xs = length ys) then Ok (Line xs ys) else Raise ValueError.

Definition plot_int (xs : list float) (ys : list Z) : result artist :=
  if decide (length xs = length ys) then Ok (LineInt xs ys) else Raise ValueError.

Definition scatter (xs ys : list float) (c : option (list Z)) : result artist :=
  if decide (length xs = length ys) then
    match c with
    | Some cs => if decide (length cs = length xs) then Ok (Scatter xs ys c)
                 else Raise ValueError
    | None => Ok (Scatter xs ys c)
    end
  else Raise ValueError.

(** The start and end markers every path panel draws. *)
Definition start_end_markers (data : series) : result (list artist) :=
  x0 ← getitem (data_x data) 0;
  y0 ← getitem (data_y data) 0;
  x1 ← getitem (data_x data) (-1);
  y1 ← getitem (data_y data) (-1);
  Ok [Marker "Start" x0 y0; Marker "End" x1 y1].

Definition dark_threshold : Z := 45.

(** [data['light'] < dark_threshold]. *)
Definition dark_mask (light : list Z) : list bool :=
  map (λ l, l <? dark_threshold) light.

(** [data['theta'] / 100.0], the heading in degrees. *)
Definition heading_degrees (theta : float) : float :=
  PrimFloat.div theta 100%float.

(** [np.deg2rad(data['theta'][i] / 100.0)]. *)
Definition theta_rad (theta : float) : float :=
  np.deg2rad (heading_degrees theta).

Section Renderer.

(** [np.cos], [np.sin] and [np.mean] over an integer array are taken as
    the library gives them.  ([np.mean] raises only on integers too large
    for a float, which the scatter plot of the light values, drawn before
    the statistics, refuses as well.) *)
Variable np_cos np_sin : float → float.
Variable np_mean : list Z → float.

(** So are the values of [np.min] and [np.max] on an array that is not
    empty (which of [0.0] and [-0.0] either returns is the library's
    choice); on an empty array both raise [ValueError]. *)
Variable np_amin np_amax : list float → float.

Definition np_min (a : list float) : result float :=
  match a with
  | [] => Raise ValueError
  | _ :: _ => Ok (np_amin a)
  end.

Definition np_max (a : list float) : result float :=
  match a with
  | [] => Raise ValueError
  | _ :: _ => Ok (np_amax a)
  end.

(** The body of the arrow loop, for index [i] and arrow length [len]. *)
Definition arrow_at (len : float) (data : series) (i : nat) : result artist :=
  th ← getitem (data_theta data) (Z.of_nat i);
  let dx := PrimFloat.mul len (np_cos (theta_rad th)) in
  let dy := PrimFloat.mul len (np_sin (theta_rad th)) in
  x ← getitem (data_x data) (Z.of_nat i);
  y ← getitem (data_y data) (Z.of_nat i);
  Ok (ArrowPatch (Arrow x y dx dy)).

(** [skip = max(1, len(data['x']) // d)] and the indices
    [range(0, len(data['x']), skip)]. *)
Definition skip (d : nat) (data : series) : nat :=
  Nat.max 1 (length (data_x data) / d).

Definition arrow_indices (d : nat) (data : series) : list nat :=
  range (length (data_x data)) (skip d data).

Definition arrows (d : nat) (len : float) (data : series) : result (list artist) :=
  mapM (arrow_at len data) (arrow_indices d data).

(** Panel 1: path with orientation. *)
Definition path_panel (data : series) : result panel :=
  path ← plot (data_x data) (data_y data);
  markers ← start_end_markers data;
  arrs ← arrows 15 3%float data;
  Ok (path :: markers ++ arrs).

(** Panel 2: path coloured by the light sensor. *)
Definition light_panel (data : series) : result panel :=
  sc ← scatter (data_x data) (data_y data) (Some (data_light data));
  markers ← start_end_markers data;
  Ok (sc :: markers).

(** Panel 3: the samples below the dark threshold. *)
Definition dark_points (data : series) : result (list float * list float) :=
  dark_points_x ← np.mask_select (data_x data) (dark_mask (data_light data));
  dark_points_y ← np.mask_select (data_y data) (dark_mask (data_light data));
  Ok (dark_points_x, dark_points_y).

Definition dark_panel (data : series) : result panel :=
  '(dark_points_x, dark_points_y) ← dark_points data;
  path ← plot (data_x data) (data_y data);
  highlight ←
    (if (0 <? length dark_points_x)%nat
     then sc ← scatter dark_points_x dark_points_y None; Ok [sc]
     else Ok []);
  markers ← start_end_markers data;
  Ok (path :: highlight ++ markers).

(** Panels 4 and 5: heading and sensors against time in seconds. *)
Definition time_sec (data : series) : list float :=
  map (λ t, PrimFloat.div t 1000%float) (data_time data).

Definition heading_panel (data : series) : result panel :=
  l ← plot (time_sec data) (map heading_degrees (data_theta data));
  Ok [l].

Definition sensor_panel (data : series) : result panel :=
  line1 ← plot_int (time_sec data) (data_light data);
  line2 ← plot_int (time_sec data) (data_distance data);
  Ok [line1; line2].

(** Panel 6: the statistics text. *)
Definition stats_panel (data : series) : result panel :=
  st ← path_statistics data;
  xmin ← np_min (data_x data);
  xmax ← np_max (data_x data);
  ymin ← np_min (data_y data);
  ymax ← np_max (data_y data);
  let mean_light := np_mean (data_light data) in
  dist ← getitem (data_distance data) (-1);
  Ok [Text (StatsText (length (data_x data)) st xmin xmax ymin ymax mean_light dist)].

End Renderer.

(** ** Console and figure output *)

(** One constructor per [print] of the source; the formatted numbers are
    kept as values. *)
Inductive message : Type :=
| MsgRule
| MsgTitle
| MsgReadingFile (filename : string)
| MsgRead (n : nat)
| MsgBasicInformation
| MsgXRange (lo hi : float)
| MsgYRange (lo hi : float)
| MsgTotalTime (t : float)
| MsgGeneratingFull
| MsgImageSaved (filename : string)
| MsgGeneratingSimple
| MsgCompleted
| MsgFileNotFound (filename : string)
| MsgMakeSure
| MsgErrorOccurred (e : exn).

Inductive prompt : Type :=
| PromptFilename
| PromptSimplePlot.

Inductive event : Type :=
| Print (m : message)
| Input (p : prompt)
| Savefig (filename : string) (fig : list panel)
| Show (fig : list panel).

(** A computation that prints as it goes: what was printed stays printed
    when an exception ends it. *)
Definition traced (A : Type) : Type := (list event * result A)%type.

Global Instance traced_ret : MRet traced := λ A a, ([], Ok a).
Global Instance traced_bind : MBind traced :=
  λ A B f m,
    match m with
    | (tr, Ok a) => let '(tr', r) := f a in (tr ++ tr', r)
    | (tr, Raise e) => (tr, Raise e)
    end.

Definition emit (e : event) : traced unit := ([e], Ok tt).
Definition print (m : message) : traced unit := emit (Print m).
Definition lift {A} (r : result A) : traced A := ([], r).
(** [try: body except ...: handler]. *)
Definition try_except {A} (body : traced A) (handler : exn → traced A) : traced A :=
  match body with
  | (tr, Ok a) => (tr, Ok a)
  | (tr, Raise e) => let '(tr', r) := handler e in (tr ++ tr', r)
  end.

(** A Python [str] is held as its UTF-8 encoding, one [ascii] per byte.

    [str.strip] removes the characters Python counts as white space from
    both ends: U+0009 to U+000D, U+001C to U+0020, U+0085, U+00A0, U+1680,
    U+2000 to U+200A, U+2028, U+2029, U+202F, U+205F and U+3000. *)
Definition is_space (c : ascii) : bool :=
  let n := nat_of_ascii c in
  ((9 <=? n)%nat && (n <=? 13)%nat) || ((28 <=? n)%nat && (n <=? 32)%nat).

(** White space encoded on two bytes: U+0085 and U+00A0. *)
Definition is_space2 (c1 c2 : ascii) : bool :=
  (nat_of_ascii c1 =? 194)%nat
  && ((nat_of_ascii c2 =? 133)%nat || (nat_of_ascii c2 =? 160)%nat).

(** White space encoded on three bytes: U+1680, U+2000 to U+200A, U+2028,
    U+2029, U+202F, U+205F and U+3000. *)
Definition is_space3 (c1 c2 c3 : ascii) : bool :=
  let n1 := nat_of_ascii c1 in
  let n2 := nat_of_ascii c2 in
  let n3 := nat_of_ascii c3 in
  ((n1 =? 225)%nat && (n2 =? 154)%nat && (n3 =? 128)%nat)
  || ((n1 =? 226)%nat && (n2 =? 128)%nat
      && (((128 <=? n3)%nat && (n3 <=? 138)%nat)
          || (n3 =? 168)%nat || (n3 =? 169)%nat || (n3 =? 175)%nat))
  || ((n1 =? 226)%nat && (n2 =? 129)%nat && (n3 =? 159)%nat)
  || ((n1 =? 227)%nat && (n2 =? 128)%nat && (n3 =? 128)%nat).

Fixpoint lstrip (s : string) : string :=
  match s with
  | EmptyString => EmptyString
  | String c1 s1 =>
      if is_space c1 then lstrip s1
      else match s1 with
           | EmptyString => s
           | String c2 s2 =>
               if is_space2 c1 c2 then lstrip s2
               else match s2 with
                    | EmptyString => s
                    | String c3 s3 => if is_space3 c1 c2 c3 then lstrip s3 else s
                    end
           end
  end.

(** Every character of the text is white space. *)
Definition all_space (s : string) : bool :=
  match lstrip s with
  | EmptyString => true
  | String _ _ => false
  end.

Fixpoint rstrip (s : string) : string :=
  match s with
  | EmptyString => EmptyString
  | String c s' => if all_space s then EmptyString else String c (rstrip s')
  end.

Definition strip (s : string) : string := rstrip (lstrip s).

(** [str.lower] on the letters A to Z.  No other character lower-cases to
    y, e or s, so the comparison [main] makes with the result is that of
    Python. *)
Definition lower_char (c : ascii) : ascii :=
  let n := nat_of_ascii c in
  if (65 <=? n)%nat && (n <=? 90)%nat then ascii_of_nat (n + 32) else c.

Fixpoint lower (s : string) : string :=
  match s with
  | EmptyString => EmptyString
  | String c s' => String (lower_char c) (lower s')
  end.

(** What the plotting library does with a figure is taken as given:
    [draw] stands for the drawing calls of a renderer taken together
    (figure, subplots, plot, scatter, arrow, colorbar, labels, legend and
    layout), [savefig] and [show] for the calls of those names.  Each is
    given the panels the renderer has described and returns, or raises an
    exception of the library's choosing.  [draw] is consulted once the
    renderer's own indexing, masking and arithmetic have gone through: the
    calls issued before an exception of the renderer itself are taken to
    have been accepted. *)
Record backend : Type := Backend {
  draw : list panel → result unit;
  savefig : string → list panel → result unit;
  show : list panel → result unit
}.

Section Program.

Variable str_to_float : string → option float.
Variable str_to_int : string → option Z.
Variable np_cos np_sin : float → float.
Variable np_mean : list Z → float.
Variable np_amin np_amax : list float → float.
Variable plt : backend.

(** The end of both renderers: the figure is saved and the saving
    announced when [save_figure] is set, then the figure is shown. *)
Definition save_and_show (filename : string) (save_figure : bool) (fig : list panel)
  : traced unit :=
  (if save_figure
   then lift (savefig plt filename fig);;
        emit (Savefig filename fig);;
        print (MsgImageSaved filename)
   else mret tt);;
  lift (show plt fig);;
  emit (Show fig).

(** The six panels of the dashboard. *)
Definition dashboard (data : series) : result (list panel) :=
  ax1 ← path_panel np_cos np_sin data;
  ax2 ← light_panel data;
  ax3 ← dark_panel data;
  ax4 ← heading_panel data;
  ax5 ← sensor_panel data;
  ax6 ← stats_panel np_mean np_amin np_amax data;
  Ok [ax1; ax2; ax3; ax4; ax5; ax6].

Definition plot_robot_path (data : series) (save_figure : bool) : traced unit :=
  fig ← lift (dashboard data);
  lift (draw plt fig);;
  save_and_show "robot_path_analysis.png" save_figure fig.

(** The single panel of the simple plot. *)
Definition simple_figure (data : series) : result (list panel) :=
  path ← plot (data_x data) (data_y data);
  markers ← start_end_markers data;
  arrs ← arrows np_cos np_sin 10 4%float data;
  Ok [path :: markers ++ arrs].

Definition plot_simple_path (data : series) (save_figure : bool) : traced unit :=
  fig ← lift (simple_figure data);
  lift (draw plt fig);;
  save_and_show "robot_path_simple.png" save_figure fig.

(** The body of the [try] of [main]; [answer] is the line typed at the
    second prompt, read only when the dashboard has been drawn. *)
Definition main_try (fs : filesystem) (filename answer : string) : traced unit :=
  print (MsgReadingFile filename);;
  data ← lift (read_path_data str_to_float str_to_int fs filename);
  print (MsgRead (length (data_x data)));;
  print MsgBasicInformation;;
  xmin ← lift (np_min np_amin (data_x data));
  xmax ← lift (np_max np_amax (data_x data));
  print (MsgXRange xmin xmax);;
  ymin ← lift (np_min np_amin (data_y data));
  ymax ← lift (np_max np_amax (data_y data));
  print (MsgYRange ymin ymax);;
  t_last ← lift (getitem (data_time data) (-1));
  t_first ← lift (getitem (data_time data) 0);
  print (MsgTotalTime (PrimFloat.div (PrimFloat.sub t_last t_first) 1000%float));;
  print MsgGeneratingFull;;
  plot_robot_path data true;;
  emit (Input PromptSimplePlot);;
  let choice := lower (strip answer) in
  (if decide (choice = "y"%string ∨ choice = "yes"%string)
   then print MsgGeneratingSimple;; plot_simple_path data true
   else mret tt);;
  print MsgCompleted;;
  print MsgRule.

(** The file name [main] settles on: the typed line, stripped, or
    [path.txt] when nothing is left. *)
Definition chosen_filename (typed : string) : string :=
  let filename := strip typed in
  if decide (filename = ""%string) then "path.txt"%string else filename.

(** The two [except] clauses of [main]. *)
Definition main_except (filename : string) (e : exn) : traced unit :=
  match e with
  | FileNotFoundError _ => print (MsgFileNotFound filename);; print MsgMakeSure
  | _ => print (MsgErrorOccurred e)
  end.

(** [main], given the two lines typed at the prompts. *)
Definition main (fs : filesystem) (typed answer : string) : traced unit :=
  print MsgRule;;
  print MsgTitle;;
  print MsgRule;;
  emit (Input PromptFilename);;
  let filename := chosen_filename typed in
  try_except (main_try fs filename answer) (main_except filename).

End Program.

(** ** Vocabulary of the properties *)

(** The shape the loader guarantees: six columns of one length. *)
Definition aligned (data : series) : Prop :=
  length (data_time data) = length (data_x data)
  ∧ length (data_y data) = length (data_x data)
  ∧ length (data_theta data) = length (data_x data)
  ∧ length (data_light data) = length (data_x data)
  ∧ length (data_distance data) = length (data_x data).

Global Instance aligned_dec (data : series) : Decision (aligned data).
Proof. unfold aligned. apply _. Defined.

(** Reversing the sample order reverses every column. *)
Definition reversed (data : series) : series :=
  Series (reverse (data_time data)) (reverse (data_x data)) (reverse (data_y data))
         (reverse (data_theta data)) (reverse (data_light data))
         (reverse (data_distance data)).

(** The derived path length. *)
Definition path_length (data : series) : result float :=
  st ← path_statistics data; Ok (total_distance st).

(** The samples the thresholded panel highlights: those of [a] whose light
    value is below the threshold. *)
Definition below_threshold {A} (a : list A) (light : list Z) : list A :=
  fst <$> filter (λ p, p.2 < dark_threshold) (zip a light).

(** A float whose sign bit is clear, or a NaN. *)
Definition sign_clear (u : spec_float) : Prop :=
  match u with
  | S754_zero s | S754_infinity s | S754_finite s _ _ => s = false
  | S754_nan => True
  end.

Definition float_columns : list string := ["Time"; "X"; "Y"; "Theta"]%string.
Definition int_columns : list string := ["Light"; "Dist"]%string.
Definition required_columns : list string := float_columns ++ int_columns.

Section WellFormed.

Variable str_to_float : string → option float.
Variable str_to_int : string → option Z.

(** The number a row holds under a column: the field is present, is a
    string, and is a literal of the column's type. *)
Definition float_field (column : string) (r : row) : option float :=
  v ← r !! column; s ← v; str_to_float s.

Definition int_field (column : string) (r : row) : option Z :=
  v ← r !! column; s ← v; str_to_int s.

Definition row_complete (r : row) : Prop :=
  Forall (λ column, is_Some (float_field column r)) float_columns
  ∧ Forall (λ column, is_Some (int_field column r)) int_columns.

(** A well-formed file: the header names the six columns and every data
    record has a numeric field of the right type under each of them. *)
Definition well_formed (header : list string) (records : list (list string)) : Prop :=
  Forall (λ column, column ∈ header) required_columns
  ∧ Forall (λ record, row_complete (csv.make_row header record))
           (csv.data_records records).

Global Instance row_complete_dec (r : row) : Decision (row_complete r).
Proof. unfold row_complete. apply _. Defined.

Global Instance well_formed_dec header records : Decision (well_formed header records).
Proof. unfold well_formed. apply _. Defined.

End WellFormed.

(** ** Sample data *)

(** The three-row log of the round-trip scenario. *)
Definition telemetry_3rows : series :=
  Series [0; 1000; 2000]%float [0; 3; 3]%float [0; 4; 4]%float [0; 0; 0]%float
         [50; 50; 50] [10; 10; 10].

(** A two-sample log whose time does not advance. *)
Definition telemetry_stalled : series :=
  Series [500; 500]%float [0; 3]%float [0; 4]%float [0; 0]%float [50; 50] [10; 10].

(** A log with one long leg, of 2^53 cm, followed by two legs of 1 cm. *)
Definition telemetry_long_leg : series :=
  Series [0; 1000; 2000; 3000]%float
         [0; 9007199254740992; 9007199254740992; 9007199254740992]%float
         [0; 0; 1; 2]%float [0; 0; 0; 0]%float [50; 50; 50; 50] [10; 10; 10; 10].

(** Five samples along a straight line, the first three over a dark
    surface, heading 90 degrees. *)
Definition telemetry_5rows : series :=
  Series [0; 100; 200; 300; 400]%float [0; 1; 2; 3; 4]%float [0; 0; 0; 0; 0]%float
         [9000; 9000; 9000; 9000; 9000]%float [10; 20; 44; 45; 80] [7; 7; 7; 7; 7].

(** Three samples with the light values 10, 50 and 80. *)
Definition telemetry_lights : series :=
  Series [0; 100; 200]%float [0; 1; 2]%float [0; 0; 0]%float
         [0; 0; 0]%float [10; 50; 80] [7; 7; 7].

(** Plain decimal integer literals, a sample of what the builtins [int] and
    [float] accept. *)
Fixpoint digits_value (acc : N) (s : string) : option N :=
  match s with
  | EmptyString => Some acc
  | String c s' =>
      let n := N_of_ascii c in
      if ((48 <=? n) && (n <=? 57))%N
      then digits_value (acc * 10 + (n - 48))%N s'
      else None
  end.

Definition decimal_int (s : string) : option Z :=
  match s with
  | EmptyString => None
  | String "-"%char EmptyString => None
  | String "-"%char s' => (λ n, - Z.of_N n) <$> digits_value 0%N s'
  | _ => Z.of_N <$> digits_value 0%N s
  end.

Definition decimal_float (s : string) : option float :=
  z ← decimal_int s;
  if Z.abs z <? 2 ^ 53 then
    let m := PrimFloat.of_uint63 (Uint63.of_Z (Z.abs z)) in
    Some (if z <? 0 then PrimFloat.opp m else m)
  else None.

(** Polynomial stand-ins for [np.cos] and [np.sin], and an integer mean, to
    run the renderers on sample data. *)
Definition cos_sample (t : float) : float :=
  let t2 := PrimFloat.mul t t in
  PrimFloat.add (PrimFloat.sub 1%float (PrimFloat.div t2 2%float))
                (PrimFloat.div (PrimFloat.mul t2 t2) 24%float).

Definition sin_sample (t : float) : float :=
  let t2 := PrimFloat.mul t t in
  PrimFloat.sub t (PrimFloat.div (PrimFloat.mul t t2) 6%float).

Definition mean_sample (light : list Z) : float :=
  PrimFloat.div (PrimFloat.of_uint63 (Uint63.of_Z (foldr Z.add 0 light)))
                (PrimFloat.of_uint63 (Uint63.of_Z (Z.of_nat (length light)))).

(** Stand-ins for numpy's reductions behind [np.min] and [np.max] on a
    non-empty array, and two plotting libraries: one that accepts every
    figure, one that refuses to draw any. *)
Definition amin_sample (a : list float) : float :=
  match a with
  | [] => 0%float
  | v :: a' => foldl (λ u w, if PrimFloat.ltb w u || PrimFloat.is_nan w then w else u) v a'
  end.

Definition amax_sample (a : list float) : float :=
  match a with
  | [] => 0%float
  | v :: a' => foldl (λ u w, if PrimFloat.ltb u w || PrimFloat.is_nan w then w else u) v a'
  end.

Definition plt_sample : backend :=
  Backend (λ _, Ok tt) (λ _ _, Ok tt) (λ _, Ok tt).

Definition plt_refusing : backend :=
  Backend (λ _, Raise ValueError) (λ _ _, Ok tt) (λ _, Ok tt).

(** The file of the round-trip scenario; a file that stops after a header
    without the Y, Theta, Light and Dist columns; a file whose header lacks
    the Y column, with one data row. *)
Definition file_3rows : list (list string) :=
  [ ["Time"; "X"; "Y"; "Theta"; "Light"; "Dist"];
    ["0"; "0"; "0"; "0"; "50"; "10"];
    ["1000"; "3"; "4"; "0"; "50"; "10"];
    ["2000"; "3"; "4"; "0"; "50"; "10"] ]%string.

Definition file_header_only : list (list string) := [ ["Time"; "X"] ]%string.

Definition file_no_y : list (list string) :=
  [ ["Time"; "X"; "Theta"; "Light"; "Dist"]; ["0"; "1"; "9000"; "50"; "10"] ]%string.

Definition fs_sample : filesystem :=
  λ filename,
    if decide (filename = "path.txt"%string) then Readable file_3rows
    else if decide (filename = "short.txt"%string) then Readable file_header_only
    else Missing.

Definition fs_no_y : filesystem := λ _, Readable file_no_y.

(** Two rows that hold the same fields under the six columns. *)
Definition agree_on_required (r r' : row) : Prop :=
  Forall (λ column, r !! column = r' !! column) required_columns.

Section FieldOutcome.

Variable str_to_float : string → option float.
Variable str_to_int : string → option Z.

(** The field of a row under a column converts to the column's type. *)
Definition field_parses (r : row) (column : string) : Prop :=
  (column ∈ float_columns ∧ is_Some (float_field str_to_float column r))
  ∨ (column ∈ int_columns ∧ is_Some (int_field str_to_int column r)).

(** How the field of a row under a column fails to convert, and the
    exception that results: the column is absent from the row, the record
    was too short to reach it, or its text is not a literal of the
    column's type. *)
Inductive field_fails (r : row) (column : string) : exn → Prop :=
| field_absent :
    r !! column = None → field_fails r column (KeyError column)
| field_unfilled :
    r !! column = Some None → field_fails r column TypeError
| field_malformed (s : string) :
    r !! column = Some (Some s) →
    (column ∈ float_columns ∧ str_to_float s = None)
    ∨ (column ∈ int_columns ∧ str_to_int s = None) →
    field_fails r column ValueError.

End FieldOutcome.

(** The round-trip file with its first two columns exchanged; the same file
    with a column of remarks added; a file whose second data row has text
    where X should be, followed by a row that is too short. *)
Definition file_3rows_swapped : list (list string) :=
  [ ["X"; "Time"; "Y"; "Theta"; "Light"; "Dist"];
    ["0"; "0"; "0"; "0"; "50"; "10"];
    ["3"; "1000"; "4"; "0"; "50"; "10"];
    ["3"; "2000"; "4"; "0"; "50"; "10"] ]%string.

Definition file_3rows_remarks : list (list string) :=
  [ ["Time"; "X"; "Y"; "Theta"; "Light"; "Dist"; "Remark"];
    ["0"; "0"; "0"; "0"; "50"; "10"; "start"];
    ["1000"; "3"; "4"; "0"; "50"; "10"; ""];
    [];
    ["2000"; "3"; "4"; "0"; "50"; "10"; "stop"] ]%string.

Definition file_bad_second_row : list (list string) :=
  [ ["Time"; "X"; "Y"; "Theta"; "Light"; "Dist"];
    ["0"; "0"; "0"; "0"; "50"; "10"];
    ["1000"; "three"; "4"; "0"; "50"; "10"];
    ["2000"; "3"] ]%string.

Definition fs_variants : filesystem :=
  λ filename,
    if decide (filename = "path.txt"%string) then Readable file_3rows
    else if decide (filename = "swapped.txt"%string) then Readable file_3rows_swapped
    else if decide (filename = "remarks.txt"%string) then Readable file_3rows_remarks
    else if decide (filename = "bad.txt"%string) then Readable file_bad_second_row
    else if decide (filename = "locked.txt"%string) then Unreadable
    else Missing.

(** A float that is neither an infinity nor a NaN. *)
Definition finite (v : float) : Prop :=
  match Prim2SF v with
  | S754_zero _ | S754_finite _ _ _ => True
  | S754_infinity _ | S754_nan => False
  end.

(** Three samples of a robot that stays at (5, 7). *)
Definition telemetry_at_rest : series :=
  Series [0; 1000; 2000]%float [5; 5; 5]%float [7; 7; 7]%float [0; 0; 0]%float
         [50; 50; 50] [10; 10; 10].

(** What [main] prints before it tries to read the file. *)
Definition main_prelude (filename : string) : list event :=
  [Print MsgRule; Print MsgTitle; Print MsgRule; Input PromptFilename;
   Print (MsgReadingFile filename)].

(** A figure reaches the disk or the screen. *)
Definition is_figure_event (ev : event) : bool :=
  match ev with
  | Savefig _ _ | Show _ => true
  | Print _ | Input _ => false
  end.

(** The UTF-8 encodings of the characters Python counts as white space,
    and the text made of a sequence of pieces. *)
Definition utf8 (bytes : list nat) : string :=
  string_of_list_ascii (ascii_of_nat <$> bytes).

Definition whitespace : list string :=
  utf8 <$> [ [9]; [10]; [11]; [12]; [13]; [28]; [29]; [30]; [31]; [32];
             [194; 133]; [194; 160]; [225; 154; 128];
             [226; 128; 128]; [226; 128; 129]; [226; 128; 130]; [226; 128; 131];
             [226; 128; 132]; [226; 128; 133]; [226; 128; 134]; [226; 128; 135];
             [226; 128; 136]; [226; 128; 137]; [226; 128; 138];
             [226; 128; 168]; [226; 128; 169]; [226; 128; 175];
             [226; 129; 159]; [227; 128; 128] ]%nat.

Definition join (pieces : list string) : string :=
  foldr String.append EmptyString pieces.

(** What the handlers of [main] print for an exception. *)
Definition report (filename : string) (e : exn) : list event :=
  match e with
  | FileNotFoundError _ => [Print (MsgFileNotFound filename); Print MsgMakeSure]
  | _ => [Print (MsgErrorOccurred e)]
  end.

(** What [main] prints between a load that succeeded and the dashboard. *)
Definition basic_information
    (np_amin np_amax : list float → float) (data : series) (t_last t_first : float)
  : list event :=
  [Print (MsgRead (length (data_x data))); Print MsgBasicInformation;
   Print (MsgXRange (np_amin (data_x data)) (np_amax (data_x data)));
   Print (MsgYRange (np_amin (data_y data)) (np_amax (data_y data)));
   Print (MsgTotalTime (PrimFloat.div (PrimFloat.sub t_last t_first) 1000%float));
   Print MsgGeneratingFull].


(** * Properties *)

(** ** Results and indexing *)

Lemma getitem_first {A} (v : A) (a : list A) : getitem (v :: a) 0 = Ok v.
Proof.
  unfold getitem. cbn [length].
  replace (0 <? 0) with false by reflexivity.
  replace (0 <=? 0) with true by reflexivity.
  replace (0 <? Z.of_nat (S (length a))) with true by (symmetry; apply Z.ltb_lt; lia).
  reflexivity.
Qed.

Lemma getitem_last {A} (a : list A) (v : A) : getitem (a ++ [v]) (-1) = Ok v.
Proof.
  unfold getitem. rewrite length_app. cbn [length].
  replace (-1 <? 0) with true by reflexivity.
  set (n := Z.of_nat (length a + 1)).
  assert (Hn : n + -1 = Z.of_nat (length a)) by (unfold n; lia).
  rewrite Hn.
  replace (0 <=? Z.of_nat (length a)) with true by (symmetry; apply Z.leb_le; lia).
  replace (Z.of_nat (length a) <? n) with true by (symmetry; apply Z.ltb_lt; lia).
  rewrite Nat2Z.id. cbn [andb].
  rewrite lookup_app_r by lia. rewrite Nat.sub_diag. reflexivity.
Qed.

Lemma getitem_nonempty {A} (a : list A) (i : Z) :
  a ≠ [] → (i = 0 ∨ i = -1) → ∃ v, getitem a i = Ok v.
Proof.
  intros Ha [-> | ->].
  - destruct a as [|v a]; [done|]. exists v. apply getitem_first.
  - destruct (exists_last Ha) as (a' & v & ->). exists v. apply getitem_last.
Qed.

(** ** C1: the round-trip scenario *)

(** C1. The three-row series (0,0,0,0,50,10), (1000,3,4,0,50,10),
    (2000,3,4,0,50,10) has path length 5.0, elapsed time 2.0 seconds and
    average speed 2.5 cm/s; the two segment lengths are sqrt(3^2+4^2) = 5
    and 0. *)
Theorem C1_round_trip_statistics :
  distances (data_x telemetry_3rows) (data_y telemetry_3rows) = Ok [5; 0]%float
  ∧ path_statistics telemetry_3rows
    = Ok (Statistics 5%float 2%float (PyFloat 2.5%float)).
Proof. split; vm_compute; reflexivity. Qed.

(** ** C2: the zero-division guard *)

Lemma float_eqb_zero_not_pos (t : float) :
  PrimFloat.eqb t 0%float = true → PrimFloat.ltb 0%float t = false.
Proof.
  rewrite FloatAxioms.eqb_spec, FloatAxioms.ltb_spec.
  replace (Prim2SF 0%float) with (S754_zero false) by reflexivity.
  unfold SFeqb, SFltb, SFcompare.
  destruct (Prim2SF t) as [s|s| |s m e]; try discriminate; try reflexivity;
    destruct s; try discriminate; reflexivity.
Qed.

Lemma distances_aligned (xs ys : list float) :
  length xs = length ys →
  distances xs ys
  = Ok (np.sqrt (zip_with PrimFloat.add (np.square (np.diff xs)) (np.square (np.diff ys)))).
Proof.
  intros Hlen. unfold distances, np.broadcast.
  assert (Hd : length (np.square (np.diff xs)) = length (np.square (np.diff ys))).
  { unfold np.square, np.diff. rewrite !length_map, !length_zip_with, !length_drop, !length_take.
    lia. }
  destruct (decide _) as [_|Hne]; [reflexivity | contradiction].
Qed.

(** C2. On every series whose x and y agree in length and whose time column
    is not empty the statistics are computed without an exception; the
    elapsed time is (time[-1] - time[0]) / 1000; when it equals 0 the
    average speed is the integer 0, and when it is positive the average
    speed is path length divided by elapsed time. *)
Theorem C2_average_speed_guard (data : series) :
  length (data_x data) = length (data_y data) →
  data_time data ≠ [] →
  ∃ ds t_last t_first st,
    distances (data_x data) (data_y data) = Ok ds
    ∧ getitem (data_time data) (-1) = Ok t_last
    ∧ getitem (data_time data) 0 = Ok t_first
    ∧ path_statistics data = Ok st
    ∧ total_distance st = np.sum ds
    ∧ total_time st = PrimFloat.div (PrimFloat.sub t_last t_first) 1000%float
    ∧ (PrimFloat.eqb (total_time st) 0%float = true → avg_speed st = PyInt 0)
    ∧ (PrimFloat.ltb 0%float (total_time st) = true →
       avg_speed st = PyFloat (PrimFloat.div (total_distance st) (total_time st))).
Proof.
  intros Hlen Htime.
  destruct (getitem_nonempty (data_time data) (-1) Htime) as [t_last Hl]; [auto|].
  destruct (getitem_nonempty (data_time data) 0 Htime) as [t_first Hf]; [auto|].
  eexists _, t_last, t_first, _.
  split; [apply distances_aligned, Hlen|].
  split; [exact Hl|]. split; [exact Hf|].
  unfold path_statistics. rewrite (distances_aligned _ _ Hlen), Hl, Hf.
  cbn [mbind result_bind].
  split; [reflexivity|]. cbn [total_distance total_time avg_speed].
  split; [reflexivity|]. split; [reflexivity|].
  split.
  - intros Hz. rewrite (float_eqb_zero_not_pos _ Hz). reflexivity.
  - intros Hp. rewrite Hp. reflexivity.
Qed.

Lemma C2_average_speed_guard_witness :
  path_statistics telemetry_stalled = Ok (Statistics 5%float 0%float (PyInt 0))
  ∧ ∃ ds t_last t_first st,
    distances (data_x telemetry_stalled) (data_y telemetry_stalled) = Ok ds
    ∧ getitem (data_time telemetry_stalled) (-1) = Ok t_last
    ∧ getitem (data_time telemetry_stalled) 0 = Ok t_first
    ∧ path_statistics telemetry_stalled = Ok st
    ∧ total_distance st = np.sum ds
    ∧ total_time st = PrimFloat.div (PrimFloat.sub t_last t_first) 1000%float
    ∧ (PrimFloat.eqb (total_time st) 0%float = true → avg_speed st = PyInt 0)
    ∧ (PrimFloat.ltb 0%float (total_time st) = true →
       avg_speed st = PyFloat (PrimFloat.div (total_distance st) (total_time st))).
Proof.
  split; [vm_compute; reflexivity|].
  apply (C2_average_speed_guard telemetry_stalled); [reflexivity | discriminate].
Defined.

(** ** C6: reversal of the sample order *)

(** The sign of a difference does not survive squaring, down to the last
    bit: IEEE rounding is symmetric in the sign. *)
Section SpecFloatSign.

Variables prec emax : Z.

Lemma SFabs_binary_round_aux s s' m e l :
  SFabs (binary_round_aux prec emax s m e l)
  = SFabs (binary_round_aux prec emax s' m e l).
Proof.
  unfold binary_round_aux.
  destruct (shr_fexp prec emax m e l) as [mrs1 e1].
  destruct (shr_fexp prec emax _ e1 loc_Exact) as [mrs2 e2].
  destruct (shr_m mrs2); [reflexivity| |reflexivity].
  destruct (Z.leb _ _); reflexivity.
Qed.

Lemma SFabs_binary_round s s' m e :
  SFabs (binary_round prec emax s m e) = SFabs (binary_round prec emax s' m e).
Proof.
  unfold binary_round. destruct (shl_align _ _ _) as [mz ez].
  apply SFabs_binary_round_aux.
Qed.

Lemma SFabs_binary_normalize_opp m e sz :
  SFabs (binary_normalize prec emax (- m) e sz)
  = SFabs (binary_normalize prec emax m e sz).
Proof. destruct m; simpl; [reflexivity | |]; apply SFabs_binary_round. Qed.

Lemma SFabs_SFsub_swap u v :
  SFabs (SFsub prec emax u v) = SFabs (SFsub prec emax v u).
Proof.
  destruct u as [su|su| |su mu eu], v as [sv|sv| |sv mv ev]; simpl;
    try reflexivity; try (destruct su, sv; reflexivity).
  rewrite (Z.min_comm ev eu), <- SFabs_binary_normalize_opp.
  f_equal. f_equal. lia.
Qed.

Lemma SFmul_self_SFabs u v :
  SFabs u = SFabs v → SFmul prec emax u u = SFmul prec emax v v.
Proof.
  destruct u as [su|su| |su mu eu], v as [sv|sv| |sv mv ev]; simpl;
    try discriminate; try reflexivity; intros H; inversion H; subst;
    destruct su, sv; reflexivity.
Qed.

End SpecFloatSign.

Lemma square_sub_swap (a b : float) :
  PrimFloat.mul (PrimFloat.sub a b) (PrimFloat.sub a b)
  = PrimFloat.mul (PrimFloat.sub b a) (PrimFloat.sub b a).
Proof.
  apply Prim2SF_inj. rewrite !FloatAxioms.mul_spec, !FloatAxioms.sub_spec.
  apply SFmul_self_SFabs, SFabs_SFsub_swap.
Qed.

Lemma diff_cons (u : float) (a : list float) :
  np.diff (u :: a)
  = match a with
    | [] => []
    | v :: _ => PrimFloat.sub v u :: np.diff a
    end.
Proof.
  destruct a as [|v a]; [reflexivity|].
  unfold np.diff. cbn [length drop]. rewrite !Nat.sub_succ, !Nat.sub_0_r.
  reflexivity.
Qed.

Lemma diff_snoc (a : list float) (u v : float) :
  np.diff (a ++ [u; v]) = np.diff (a ++ [u]) ++ [PrimFloat.sub v u].
Proof.
  induction a as [|w a IH]; [reflexivity|].
  cbn [app]. rewrite !diff_cons.
  destruct a as [|z a]; [reflexivity|].
  cbn [app] in *. rewrite IH. reflexivity.
Qed.

Lemma square_diff_reverse (a : list float) :
  np.square (np.diff (reverse a)) = reverse (np.square (np.diff a)).
Proof.
  destruct a as [|u a]; [reflexivity|].
  revert u. induction a as [|v a IH]; intros u; [reflexivity|].
  rewrite diff_cons. rewrite (reverse_cons _ u), (reverse_cons _ v).
  rewrite <- app_assoc. cbn [app]. rewrite diff_snoc.
  rewrite <- reverse_cons.
  unfold np.square in *. rewrite map_app, IH. cbn [map].
  rewrite reverse_cons. rewrite (square_sub_swap u v). reflexivity.
Qed.

Lemma zip_with_reverse {A B C} (f : A → B → C) (l : list A) (k : list B) :
  length l = length k →
  zip_with f (reverse l) (reverse k) = reverse (zip_with f l k).
Proof.
  revert k. induction l as [|x l IH]; intros [|y k] Hlen; try discriminate; [reflexivity|].
  cbn [zip_with]. rewrite !reverse_cons.
  rewrite zip_with_app by (rewrite !length_reverse; simpl in Hlen; lia).
  rewrite IH by (simpl in Hlen; lia). reflexivity.
Qed.

Lemma length_square_diff (a : list float) :
  length (np.square (np.diff a)) = (length a - 1)%nat.
Proof.
  unfold np.square, np.diff.
  rewrite length_map, length_zip_with, length_drop, length_take. lia.
Qed.

Lemma map_reverse {A B} (f : A → B) (l : list A) :
  map f (reverse l) = reverse (map f l).
Proof.
  induction l as [|x l IH]; [reflexivity|].
  rewrite reverse_cons, map_app, IH. cbn [map]. rewrite reverse_cons. reflexivity.
Qed.

Lemma distances_reverse (xs ys : list float) :
  length xs = length ys →
  ∃ ds, distances xs ys = Ok ds ∧ distances (reverse xs) (reverse ys) = Ok (reverse ds).
Proof.
  intros Hlen. eexists. split; [apply distances_aligned, Hlen|].
  rewrite distances_aligned by (rewrite !length_reverse; exact Hlen).
  rewrite !square_diff_reverse.
  rewrite zip_with_reverse by (rewrite !length_square_diff; lia).
  unfold np.sqrt. rewrite map_reverse. reflexivity.
Qed.

Lemma SFadd_zero_swap prec emax (u v : spec_float) :
  SFadd prec emax (SFadd prec emax (S754_zero false) u) v
  = SFadd prec emax (SFadd prec emax (S754_zero false) v) u.
Proof.
  destruct u as [su|su| |su mu eu], v as [sv|sv| |sv mv ev]; simpl;
    try reflexivity; try (destruct su, sv; reflexivity);
    try (destruct su; reflexivity); try (destruct sv; reflexivity).
  rewrite (Z.min_comm ev eu). f_equal. lia.
Qed.

Lemma add_zero_swap (a b : float) :
  PrimFloat.add (PrimFloat.add 0%float a) b = PrimFloat.add (PrimFloat.add 0%float b) a.
Proof.
  apply Prim2SF_inj. rewrite !FloatAxioms.add_spec.
  replace (Prim2SF 0%float) with (S754_zero false) by reflexivity.
  apply SFadd_zero_swap.
Qed.

Lemma sum_reverse_short (ds : list float) :
  (length ds ≤ 2)%nat → np.sum (reverse ds) = np.sum ds.
Proof.
  destruct ds as [|a [|b [|c ds]]]; cbn [length]; intros Hlen; try lia; try reflexivity.
  change (reverse [a; b]) with [b; a].
  unfold np.sum, np.pairwise_sum. cbn. rewrite (add_zero_swap a b). reflexivity.
Qed.

(** C6, as stated, fails: the segments of [telemetry_long_leg] measure
    2^53, 1 and 1; summed in that order the two short legs are rounded away
    one at a time (path length 2^53), summed in the reverse order they are
    added first (path length 2^53 + 2). *)
Lemma C6_reversal_counterexample :
  distances (data_x telemetry_long_leg) (data_y telemetry_long_leg)
  = Ok [9007199254740992; 1; 1]%float
  ∧ path_length telemetry_long_leg = Ok 9007199254740992%float
  ∧ path_length (reversed telemetry_long_leg) = Ok 9007199254740994%float
  ∧ path_length (reversed telemetry_long_leg) ≠ path_length telemetry_long_leg.
Proof.
  split; [vm_compute; reflexivity|].
  split; [vm_compute; reflexivity|].
  split; [vm_compute; reflexivity|].
  intros H.
  assert (Hb : (λ r, match r with
                     | Ok v => PrimFloat.eqb v 9007199254740992%float
                     | Raise _ => false
                     end) (path_length (reversed telemetry_long_leg)) = true)
    by (rewrite H; vm_compute; reflexivity).
  vm_compute in Hb. discriminate.
Qed.

(** C6, amended.  On a series whose x and y agree in length, the segment
    lengths of the reversed series are exactly the segment lengths of the
    series in reverse order, so the two path lengths are floating-point sums
    of the same terms in opposite orders; they are equal when there are at
    most two segments. *)
Theorem C6_reversal_segments (data : series) :
  length (data_x data) = length (data_y data) →
  data_time data ≠ [] →
  ∃ ds,
    distances (data_x data) (data_y data) = Ok ds
    ∧ distances (data_x (reversed data)) (data_y (reversed data)) = Ok (reverse ds)
    ∧ path_length data = Ok (np.sum ds)
    ∧ path_length (reversed data) = Ok (np.sum (reverse ds))
    ∧ ((length ds ≤ 2)%nat → path_length (reversed data) = path_length data).
Proof.
  intros Hlen Htime.
  destruct (distances_reverse _ _ Hlen) as (ds & Hds & Hrev).
  assert (Hrtime : reverse (data_time data) ≠ []).
  { intros He. apply Htime. apply (f_equal length) in He.
    rewrite length_reverse in He. destruct (data_time data); [reflexivity | discriminate]. }
  destruct (getitem_nonempty (data_time data) (-1) Htime) as [t1 H1]; [auto|].
  destruct (getitem_nonempty (data_time data) 0 Htime) as [t0 H0]; [auto|].
  destruct (getitem_nonempty (reverse (data_time data)) (-1) Hrtime) as [r1 Hr1]; [auto|].
  destruct (getitem_nonempty (reverse (data_time data)) 0 Hrtime) as [r0 Hr0]; [auto|].
  assert (Hp : path_length data = Ok (np.sum ds)).
  { unfold path_length, path_statistics. rewrite Hds, H1, H0. reflexivity. }
  assert (Hq : path_length (reversed data) = Ok (np.sum (reverse ds))).
  { unfold path_length, path_statistics, reversed.
    cbn [data_x data_y data_time]. rewrite Hrev, Hr1, Hr0. reflexivity. }
  exists ds. split; [exact Hds|]. split; [exact Hrev|].
  split; [exact Hp|]. split; [exact Hq|].
  intros Hshort. rewrite Hp, Hq, (sum_reverse_short _ Hshort). reflexivity.
Qed.

Lemma C6_reversal_segments_witness :
  ∃ ds,
    distances (data_x telemetry_3rows) (data_y telemetry_3rows) = Ok ds
    ∧ distances (data_x (reversed telemetry_3rows)) (data_y (reversed telemetry_3rows))
      = Ok (reverse ds)
    ∧ path_length telemetry_3rows = Ok (np.sum ds)
    ∧ path_length (reversed telemetry_3rows) = Ok (np.sum (reverse ds))
    ∧ ((length ds ≤ 2)%nat →
       path_length (reversed telemetry_3rows) = path_length telemetry_3rows).
Proof.
  apply (C6_reversal_segments telemetry_3rows); [reflexivity | discriminate].
Defined.

(** ** The loader *)

Lemma length_array_int (l : list Z) : length (np.array_int l) = length l.
Proof.
  unfold np.array_int.
  repeat (match goal with |- context [if ?b then _ else _] => destruct b end;
          try reflexivity).
  apply length_map.
Qed.

Lemma array_int_int64 (l : list Z) :
  forallb np.fits_int64 l = true → np.array_int l = l.
Proof. intros H. unfold np.array_int. rewrite H. reflexivity. Qed.

(** The array holds the integers it was made of, or the binary64 number
    nearest to each; the latter when the two 64-bit kinds are mixed, as in
    the array of 2^63 + 1 and 50. *)
Lemma array_int_cases (l : list Z) :
  np.array_int l = l ∨ np.array_int l = map np.float64_value l.
Proof.
  unfold np.array_int.
  repeat (match goal with |- context [if ?b then _ else _] => destruct b end;
          try (left; reflexivity)).
  right. reflexivity.
Qed.

Lemma array_int_mixed_kinds :
  np.array_int [2 ^ 63 + 1; 50] = [2 ^ 63; 50]
  ∧ np.array_int [2 ^ 63 + 1] = [2 ^ 63 + 1]
  ∧ np.array_int [2 ^ 64; 50] = [2 ^ 64; 50].
Proof. repeat split; vm_compute; reflexivity. Qed.

Lemma to_arrays_aligned (acc : series) : aligned acc → aligned (to_arrays acc).
Proof.
  unfold aligned, to_arrays, np.array_float. cbn.
  rewrite !length_array_int. tauto.
Qed.

Section LoaderProperties.

Variable str_to_float : string → option float.
Variable str_to_int : string → option Z.

Lemma getitem_float_field (r : row) (column : string) (f : float) :
  float_field str_to_float column r = Some f →
  row_getitem r column ≫= py_float str_to_float = Ok f.
Proof.
  unfold float_field, row_getitem, py_float.
  destruct (r !! column) as [[s|]|]; cbn; try discriminate.
  intros ->. reflexivity.
Qed.

Lemma getitem_int_field (r : row) (column : string) (z : Z) :
  int_field str_to_int column r = Some z →
  row_getitem r column ≫= py_int str_to_int = Ok z.
Proof.
  unfold int_field, row_getitem, py_int.
  destruct (r !! column) as [[s|]|]; cbn; try discriminate.
  intros ->. reflexivity.
Qed.

(** A row with all six numbers is appended whole. *)
Lemma append_row_ok (acc : series) (r : row) t x y th l d :
  float_field str_to_float "Time" r = Some t →
  float_field str_to_float "X" r = Some x →
  float_field str_to_float "Y" r = Some y →
  float_field str_to_float "Theta" r = Some th →
  int_field str_to_int "Light" r = Some l →
  int_field str_to_int "Dist" r = Some d →
  append_row str_to_float str_to_int acc r
  = Ok (Series (data_time acc ++ [t]) (data_x acc ++ [x]) (data_y acc ++ [y])
               (data_theta acc ++ [th]) (data_light acc ++ [l])
               (data_distance acc ++ [d])).
Proof.
  intros Ht Hx Hy Hth Hl Hd. unfold append_row.
  rewrite (getitem_float_field _ _ _ Ht), (getitem_float_field _ _ _ Hx),
    (getitem_float_field _ _ _ Hy), (getitem_float_field _ _ _ Hth),
    (getitem_int_field _ _ _ Hl), (getitem_int_field _ _ _ Hd).
  reflexivity.
Qed.

Lemma append_rows_ok (rows : list row) (acc : series) :
  Forall (row_complete str_to_float str_to_int) rows →
  ∃ data,
    append_rows str_to_float str_to_int acc rows = Ok data
    ∧ Some <$> data_time data
      = (Some <$> data_time acc) ++ (float_field str_to_float "Time" <$> rows)
    ∧ Some <$> data_x data
      = (Some <$> data_x acc) ++ (float_field str_to_float "X" <$> rows)
    ∧ Some <$> data_y data
      = (Some <$> data_y acc) ++ (float_field str_to_float "Y" <$> rows)
    ∧ Some <$> data_theta data
      = (Some <$> data_theta acc) ++ (float_field str_to_float "Theta" <$> rows)
    ∧ Some <$> data_light data
      = (Some <$> data_light acc) ++ (int_field str_to_int "Light" <$> rows)
    ∧ Some <$> data_distance data
      = (Some <$> data_distance acc) ++ (int_field str_to_int "Dist" <$> rows).
Proof.
  revert acc. induction rows as [|r rows IH]; intros acc Hrows.
  - exists acc. cbn. rewrite !app_nil_r. repeat split; reflexivity.
  - inversion Hrows as [|? ? [Hf Hi] Hrest]; subst.
    rewrite Forall_forall in Hf. rewrite Forall_forall in Hi.
    destruct (Hf "Time"%string) as [t Ht]; [set_solver|].
    destruct (Hf "X"%string) as [x Hx]; [set_solver|].
    destruct (Hf "Y"%string) as [y Hy]; [set_solver|].
    destruct (Hf "Theta"%string) as [th Hth]; [set_solver|].
    destruct (Hi "Light"%string) as [l Hl]; [set_solver|].
    destruct (Hi "Dist"%string) as [d Hd]; [set_solver|].
    cbn [append_rows].
    rewrite (append_row_ok acc r _ _ _ _ _ _ Ht Hx Hy Hth Hl Hd).
    cbn [mbind result_bind].
    destruct (IH (Series (data_time acc ++ [t]) (data_x acc ++ [x]) (data_y acc ++ [y])
               (data_theta acc ++ [th]) (data_light acc ++ [l])
               (data_distance acc ++ [d])) Hrest)
      as (data & Hdata & H1 & H2 & H3 & H4 & H5 & H6).
    exists data. split; [exact Hdata|].
    cbn [data_time data_x data_y data_theta data_light data_distance] in *.
    rewrite H1, H2, H3, H4, H5, H6.
    rewrite !fmap_app, !fmap_cons, <- !app_assoc.
    rewrite Ht, Hx, Hy, Hth, Hl, Hd.
    repeat split; reflexivity.
Qed.

Lemma fmap_Some_length {A} (l : list A) (k : list (option A)) :
  Some <$> l = k → length l = length k.
Proof. intros <-. rewrite length_fmap. reflexivity. Qed.

(** What the loader does with a file that opens. *)
Lemma read_path_data_readable
    (fs : filesystem) (filename : string) (records : list (list string)) :
  fs filename = Readable records →
  read_path_data str_to_float str_to_int fs filename
  = (acc ← append_rows str_to_float str_to_int empty_series (csv.DictReader records);
     Ok (to_arrays acc)).
Proof. intros Hfile. unfold read_path_data, open. rewrite Hfile. reflexivity. Qed.

(** C3. On a well-formed file the loader succeeds, and each of the six
    sequences it returns has one entry per data row, in row order: the
    number parsed from that row's field for the four float columns, and for
    the two integer columns the array NumPy makes of the parsed integers:
    entry by entry the parsed integers themselves, which is the case
    whenever they all fit int64, or the binary64 number nearest to each. *)
Theorem C3_loader_aligned_sequences
    (fs : filesystem) (filename : string)
    (header : list string) (records : list (list string)) :
  fs filename = Readable (header :: records) →
  well_formed str_to_float str_to_int header records →
  ∃ data,
    read_path_data str_to_float str_to_int fs filename = Ok data
    ∧ (length (data_time data) = length (csv.data_records records)
       ∧ length (data_x data) = length (csv.data_records records)
       ∧ length (data_y data) = length (csv.data_records records)
       ∧ length (data_theta data) = length (csv.data_records records)
       ∧ length (data_light data) = length (csv.data_records records)
       ∧ length (data_distance data) = length (csv.data_records records))
    ∧ Some <$> data_time data
      = float_field str_to_float "Time" ∘ csv.make_row header <$> csv.data_records records
    ∧ Some <$> data_x data
      = float_field str_to_float "X" ∘ csv.make_row header <$> csv.data_records records
    ∧ Some <$> data_y data
      = float_field str_to_float "Y" ∘ csv.make_row header <$> csv.data_records records
    ∧ Some <$> data_theta data
      = float_field str_to_float "Theta" ∘ csv.make_row header <$> csv.data_records records
    ∧ ∃ lights dists,
        Some <$> lights
        = int_field str_to_int "Light" ∘ csv.make_row header <$> csv.data_records records
        ∧ Some <$> dists
          = int_field str_to_int "Dist" ∘ csv.make_row header <$> csv.data_records records
        ∧ data_light data = np.array_int lights
        ∧ data_distance data = np.array_int dists
        ∧ (data_light data = lights ∨ data_light data = map np.float64_value lights)
        ∧ (data_distance data = dists ∨ data_distance data = map np.float64_value dists)
        ∧ (forallb np.fits_int64 lights = true → data_light data = lights)
        ∧ (forallb np.fits_int64 dists = true → data_distance data = dists).
Proof.
  intros Hfile [_ Hrows].
  destruct (append_rows_ok (csv.make_row header <$> csv.data_records records) empty_series)
    as (acc & Hacc & H1 & H2 & H3 & H4 & H5 & H6).
  { rewrite Forall_fmap. exact Hrows. }
  cbn [empty_series data_time data_x data_y data_theta data_light data_distance
       fmap list_fmap app] in *.
  rewrite <- list_fmap_compose in H1, H2, H3, H4, H5, H6.
  exists (to_arrays acc). split.
  { rewrite (read_path_data_readable _ _ _ Hfile). cbn [csv.DictReader].
    rewrite Hacc. reflexivity. }
  unfold to_arrays, np.array_float.
  cbn [data_time data_x data_y data_theta data_light data_distance].
  split.
  { rewrite !length_array_int.
    repeat split;
      match goal with
      | H : Some <$> ?l = _ |- length ?l = _ =>
          rewrite (fmap_Some_length _ _ H), length_fmap; reflexivity
      end. }
  do 4 (split; [assumption|]).
  exists (data_light acc), (data_distance acc).
  split; [assumption|]. split; [assumption|].
  split; [reflexivity|]. split; [reflexivity|].
  split; [apply array_int_cases|]. split; [apply array_int_cases|].
  split; apply array_int_int64.
Qed.

(** A column the header does not name is absent from every row. *)
Lemma foldl_insert_other {V} (f : string * string → V) (kvs : list (string * string))
    (d : gmap string V) (column : string) :
  Forall (λ kv, kv.1 ≠ column) kvs →
  foldl (λ (d : gmap string V) kv, <[kv.1 := f kv]> d) d kvs !! column = d !! column.
Proof.
  revert d. induction kvs as [|kv kvs IH]; intros d Hkvs; [reflexivity|].
  inversion Hkvs as [|? ? Hkv Hrest]; subst. cbn [foldl].
  rewrite IH by assumption. apply lookup_insert_ne. exact Hkv.
Qed.

Lemma foldl_insert_key_other {V} (v : V) (keys : list string)
    (d : gmap string V) (column : string) :
  column ∉ keys →
  foldl (λ (d : gmap string V) key, <[key := v]> d) d keys !! column = d !! column.
Proof.
  revert d. induction keys as [|key keys IH]; intros d Hkeys; [reflexivity|].
  cbn [foldl]. rewrite IH by set_solver. apply lookup_insert_ne. set_solver.
Qed.

Lemma make_row_missing (header record : list string) (column : string) :
  column ∉ header → csv.make_row header record !! column = None.
Proof.
  intros Hmiss. unfold csv.make_row.
  assert (Hzip : foldl (λ (d : row) kv, <[kv.1 := Some kv.2]> d) ∅ (zip header record)
                 !! column = None).
  { rewrite (foldl_insert_other (λ kv, Some kv.2)); [apply lookup_empty|].
    apply Forall_forall. intros [k v] Hin Heq. cbn in Heq. subst k.
    apply Hmiss. eapply elem_of_zip_l. exact Hin. }
  destruct (length record <? length header)%nat; [|exact Hzip].
  etrans; [apply (foldl_insert_key_other (V := option string) None) | exact Hzip].
  intros Hin. apply Hmiss. eapply (subseteq_drop _ header). exact Hin.
Qed.

Lemma append_row_missing (acc : series) (r : row) (column : string) :
  column ∈ required_columns → r !! column = None →
  ∃ e, append_row str_to_float str_to_int acc r = Raise e.
Proof.
  intros Hreq Hnone.
  assert (Hget : row_getitem r column = Raise (KeyError column))
    by (unfold row_getitem; rewrite Hnone; reflexivity).
  unfold append_row.
  repeat match goal with
         | |- ∃ e, (mbind _ (mbind _ (row_getitem r ?c))) = Raise e =>
             destruct (decide (c = column)) as [->|?];
             [rewrite Hget; eexists; reflexivity|];
             destruct (mbind _ (row_getitem r c));
             [cbn [mbind result_bind] | eexists; reflexivity]
         end.
  exfalso. cbn in Hreq.
  repeat (apply elem_of_cons in Hreq as [Heq | Hreq]; [congruence|]).
  by apply elem_of_nil in Hreq.
Qed.

(** C7, amended.  When the header lacks a required column and the file has
    at least one data row, the load fails while it processes the first
    data row, and the caller receives the exception and no sequences. *)
Theorem C7_missing_column_fails_on_first_row
    (fs : filesystem) (filename : string)
    (header : list string) (records : list (list string)) (column : string) :
  fs filename = Readable (header :: records) →
  column ∈ required_columns →
  column ∉ header →
  csv.data_records records ≠ [] →
  ∃ record rest e,
    csv.data_records records = record :: rest
    ∧ append_row str_to_float str_to_int empty_series (csv.make_row header record)
      = Raise e
    ∧ read_path_data str_to_float str_to_int fs filename = Raise e.
Proof.
  intros Hfile Hreq Hmiss Hrows.
  destruct (csv.data_records records) as [|record rest] eqn:Hrec; [done|].
  destruct (append_row_missing empty_series (csv.make_row header record) column Hreq
              (make_row_missing header record column Hmiss)) as [e He].
  exists record, rest, e. split; [reflexivity|]. split; [exact He|].
  unfold read_path_data, open. rewrite Hfile. cbn [mbind result_bind csv.DictReader].
  rewrite Hrec. cbn [fmap list_fmap append_rows]. rewrite He. reflexivity.
Qed.

(** C10. A file with a header and no data row loads as six empty
    sequences, whatever columns the header names. *)
Theorem C10_header_only_loads_empty
    (fs : filesystem) (filename : string)
    (header : list string) (records : list (list string)) :
  fs filename = Readable (header :: records) →
  csv.data_records records = [] →
  read_path_data str_to_float str_to_int fs filename = Ok empty_series.
Proof.
  intros Hfile Hrows. unfold read_path_data, open. rewrite Hfile.
  cbn [mbind result_bind csv.DictReader]. rewrite Hrows. reflexivity.
Qed.

End LoaderProperties.

Lemma C3_loader_aligned_sequences_witness :
  read_path_data decimal_float decimal_int fs_sample "path.txt" = Ok telemetry_3rows
  ∧ ∃ data,
      read_path_data decimal_float decimal_int fs_sample "path.txt" = Ok data
      ∧ (length (data_time data) = length (csv.data_records (tail file_3rows))
         ∧ length (data_x data) = length (csv.data_records (tail file_3rows))
         ∧ length (data_y data) = length (csv.data_records (tail file_3rows))
         ∧ length (data_theta data) = length (csv.data_records (tail file_3rows))
         ∧ length (data_light data) = length (csv.data_records (tail file_3rows))
         ∧ length (data_distance data) = length (csv.data_records (tail file_3rows)))
      ∧ Some <$> data_time data
        = float_field decimal_float "Time" ∘ csv.make_row (hd [] file_3rows)
            <$> csv.data_records (tail file_3rows)
      ∧ Some <$> data_x data
        = float_field decimal_float "X" ∘ csv.make_row (hd [] file_3rows)
            <$> csv.data_records (tail file_3rows)
      ∧ Some <$> data_y data
        = float_field decimal_float "Y" ∘ csv.make_row (hd [] file_3rows)
            <$> csv.data_records (tail file_3rows)
      ∧ Some <$> data_theta data
        = float_field decimal_float "Theta" ∘ csv.make_row (hd [] file_3rows)
            <$> csv.data_records (tail file_3rows)
      ∧ ∃ lights dists,
          Some <$> lights
          = int_field decimal_int "Light" ∘ csv.make_row (hd [] file_3rows)
              <$> csv.data_records (tail file_3rows)
          ∧ Some <$> dists
            = int_field decimal_int "Dist" ∘ csv.make_row (hd [] file_3rows)
                <$> csv.data_records (tail file_3rows)
          ∧ data_light data = np.array_int lights
          ∧ data_distance data = np.array_int dists
          ∧ (data_light data = lights ∨ data_light data = map np.float64_value lights)
          ∧ (data_distance data = dists
             ∨ data_distance data = map np.float64_value dists)
          ∧ (forallb np.fits_int64 lights = true → data_light data = lights)
          ∧ (forallb np.fits_int64 dists = true → data_distance data = dists).
Proof.
  split; [vm_compute; reflexivity|].
  apply (C3_loader_aligned_sequences decimal_float decimal_int fs_sample "path.txt"
           (hd [] file_3rows) (tail file_3rows)).
  - reflexivity.
  - apply (bool_decide_unpack _). vm_compute. exact I.
Defined.

(** C7, as stated, fails: the header of [short.txt] names neither Y, Theta,
    Light nor Dist, the file has no data row, and the load succeeds with six
    empty sequences. *)
Lemma C7_header_only_counterexample :
  fs_sample "short.txt" = Readable [["Time"; "X"]%string]
  ∧ "Y"%string ∈ required_columns
  ∧ ("Y"%string ∉ ["Time"; "X"]%string)
  ∧ read_path_data decimal_float decimal_int fs_sample "short.txt" = Ok empty_series.
Proof.
  split; [reflexivity|]. split; [set_solver|]. split; [|vm_compute; reflexivity].
  intros Hin. repeat (apply elem_of_cons in Hin as [Heq | Hin]; [discriminate|]).
  by apply elem_of_nil in Hin.
Qed.

Lemma C7_missing_column_fails_on_first_row_witness :
  read_path_data decimal_float decimal_int fs_no_y "path.txt" = Raise (KeyError "Y")
  ∧ ∃ record rest e,
      csv.data_records (tail file_no_y) = record :: rest
      ∧ append_row decimal_float decimal_int empty_series
          (csv.make_row (hd [] file_no_y) record) = Raise e
      ∧ read_path_data decimal_float decimal_int fs_no_y "path.txt" = Raise e.
Proof.
  split; [vm_compute; reflexivity|].
  apply (C7_missing_column_fails_on_first_row decimal_float decimal_int fs_no_y "path.txt"
           (hd [] file_no_y) (tail file_no_y) "Y").
  - reflexivity.
  - apply (bool_decide_unpack _). vm_compute. exact I.
  - apply (bool_decide_unpack _). vm_compute. exact I.
  - discriminate.
Defined.

Lemma C10_header_only_loads_empty_witness :
  read_path_data decimal_float decimal_int fs_sample "short.txt" = Ok empty_series.
Proof.
  apply (C10_header_only_loads_empty decimal_float decimal_int fs_sample "short.txt"
           ["Time"; "X"]%string []); reflexivity.
Defined.

(** ** The renderers *)

Lemma getitem_nat {A} (a : list A) (i : nat) (v : A) :
  a !! i = Some v → getitem a (Z.of_nat i) = Ok v.
Proof.
  intros Hv. pose proof (lookup_lt_Some _ _ _ Hv) as Hlt.
  unfold getitem.
  replace (Z.of_nat i <? 0) with false by (symmetry; apply Z.ltb_ge; lia).
  replace (0 <=? Z.of_nat i) with true by (symmetry; apply Z.leb_le; lia).
  replace (Z.of_nat i <? Z.of_nat (length a)) with true by (symmetry; apply Z.ltb_lt; lia).
  cbn [andb]. rewrite Nat2Z.id, Hv. reflexivity.
Qed.

Lemma range_from_lt (fuel i n skip : nat) :
  Forall (λ j, (j < n)%nat) (range_from fuel i n skip).
Proof.
  revert i. induction fuel as [|fuel IH]; intros i; cbn [range_from]; [constructor|].
  destruct (i <? n)%nat eqn:Hlt; [|constructor].
  constructor; [apply Nat.ltb_lt, Hlt | apply IH].
Qed.

Lemma ceil_div_step (m skip : nat) :
  (1 ≤ skip)%nat → (1 ≤ m)%nat →
  ((m + skip - 1) / skip = S ((m - skip + skip - 1) / skip))%nat.
Proof.
  intros Hskip Hm. destruct (le_lt_dec skip m) as [Hge|Hlt].
  - replace (m + skip - 1)%nat with ((m - skip + skip - 1) + 1 * skip)%nat by lia.
    rewrite Nat.div_add by lia. lia.
  - replace (m - skip + skip - 1)%nat with (skip - 1)%nat by lia.
    rewrite (Nat.div_small (skip - 1)) by lia.
    symmetry. apply (Nat.div_unique _ _ 1 (m - 1)); lia.
Qed.

(** [range(i, n, skip)] is [i], [i + skip], [i + 2 skip], ... below [n]. *)
Lemma range_from_spec (fuel i n skip : nat) :
  (1 ≤ skip)%nat → (n - i ≤ fuel)%nat →
  range_from fuel i n skip
  = (λ k, i + k * skip)%nat <$> seq 0 ((n - i + skip - 1) / skip).
Proof.
  intros Hskip. revert i. induction fuel as [|fuel IH]; intros i Hfuel.
  - replace (n - i)%nat with 0%nat by lia.
    rewrite (Nat.div_small (0 + skip - 1)) by lia. reflexivity.
  - cbn [range_from]. destruct (i <? n)%nat eqn:Hlt.
    + apply Nat.ltb_lt in Hlt.
      rewrite (ceil_div_step (n - i) skip) by lia.
      cbn [seq fmap list_fmap]. rewrite Nat.add_0_r. f_equal.
      rewrite IH by lia.
      replace (n - (i + skip))%nat with (n - i - skip)%nat by lia.
      rewrite <- seq_shift, <- list_fmap_compose.
      apply list_fmap_ext. intros _ k _. cbn. lia.
    + apply Nat.ltb_ge in Hlt. replace (n - i)%nat with 0%nat by lia.
      rewrite (Nat.div_small (0 + skip - 1)) by lia. reflexivity.
Qed.

Lemma range_spec (n skip : nat) :
  (1 ≤ skip)%nat →
  range n skip = (λ k, k * skip)%nat <$> seq 0 ((n + skip - 1) / skip).
Proof.
  intros Hskip. unfold range. rewrite range_from_spec by lia.
  rewrite Nat.sub_0_r. reflexivity.
Qed.

Lemma mapM_result_ok {A B} (f : A → result B) (l : list A) :
  Forall (λ i, ∃ b, f i = Ok b) l →
  ∃ k, mapM f l = Ok k ∧ Forall2 (λ i b, f i = Ok b) l k.
Proof.
  induction l as [|i l IH]; intros Hl.
  - exists []. split; [reflexivity | constructor].
  - inversion Hl as [|? ? [b Hb] Hrest]; subst.
    destruct (IH Hrest) as (k & Hk & Hall).
    exists (b :: k). split; [|constructor; assumption].
    cbn [mapM]. rewrite Hb. cbn [mbind result_bind]. rewrite Hk. reflexivity.
Qed.

(** A step that returns without output leaves the rest as it is. *)
Lemma traced_bind_lift_ok {A B} (a : A) (f : A → traced B) :
  (lift (Ok a) ≫= f) = f a.
Proof.
  unfold lift. cbn [mbind traced_bind]. destruct (f a) as [tr r]. reflexivity.
Qed.

(** What the end of a renderer does when the library saves and shows. *)
Lemma save_and_show_accepted
    (plt : backend) (filename : string) (save_figure : bool) (fig : list panel) :
  savefig plt filename fig = Ok tt →
  show plt fig = Ok tt →
  save_and_show plt filename save_figure fig
  = ((if save_figure
      then [Savefig filename fig; Print (MsgImageSaved filename)]
      else []) ++ [Show fig],
     Ok tt).
Proof.
  intros Hsave Hshow. unfold save_and_show.
  destruct save_figure; rewrite ?Hsave, Hshow; reflexivity.
Qed.

Section RendererProperties.

Variable np_cos np_sin : float → float.
Variable np_mean : list Z → float.
Variable plt : backend.

(** What the arrow loop draws at an index inside the three columns it
    reads: the arrow starts at the sample and points along the heading,
    converted from centidegrees to degrees and from degrees to radians. *)
Lemma arrow_at_spec (len : float) (data : series) (i : nat) :
  length (data_y data) = length (data_x data) →
  length (data_theta data) = length (data_x data) →
  (i < length (data_x data))%nat →
  ∃ th x y,
    data_theta data !! i = Some th ∧ data_x data !! i = Some x
    ∧ data_y data !! i = Some y
    ∧ arrow_at np_cos np_sin len data i
      = Ok (ArrowPatch
              (Arrow x y
                 (PrimFloat.mul len
                    (np_cos (PrimFloat.mul (PrimFloat.div th 100%float)
                               (PrimFloat.div np.pi 180%float))))
                 (PrimFloat.mul len
                    (np_sin (PrimFloat.mul (PrimFloat.div th 100%float)
                               (PrimFloat.div np.pi 180%float)))))).
Proof.
  intros Hy Hth Hi.
  destruct (lookup_lt_is_Some_2 (data_theta data) i) as [th Hlth]; [lia|].
  destruct (lookup_lt_is_Some_2 (data_x data) i) as [x Hlx]; [lia|].
  destruct (lookup_lt_is_Some_2 (data_y data) i) as [y Hly]; [lia|].
  exists th, x, y. repeat split; try assumption.
  unfold arrow_at.
  rewrite (getitem_nat _ _ _ Hlth), (getitem_nat _ _ _ Hlx), (getitem_nat _ _ _ Hly).
  reflexivity.
Qed.

Lemma arrows_ok (d : nat) (len : float) (data : series) :
  length (data_y data) = length (data_x data) →
  length (data_theta data) = length (data_x data) →
  ∃ arrs,
    arrows np_cos np_sin d len data = Ok arrs
    ∧ Forall2 (λ i a, arrow_at np_cos np_sin len data i = Ok a)
              (arrow_indices d data) arrs.
Proof.
  intros Hy Hth. apply mapM_result_ok.
  eapply Forall_impl; [apply range_from_lt|].
  intros i Hi. cbn in Hi.
  destruct (arrow_at_spec len data i Hy Hth Hi) as (th & x & y & _ & _ & _ & Ha).
  eexists. exact Ha.
Qed.

Lemma arrow_indices_spec (d : nat) (data : series) :
  arrow_indices d data
  = (λ k, k * Nat.max 1 (length (data_x data) / d))%nat
      <$> seq 0 ((length (data_x data) + Nat.max 1 (length (data_x data) / d) - 1)
                 / Nat.max 1 (length (data_x data) / d)).
Proof. unfold arrow_indices, skip. apply range_spec. lia. Qed.

Lemma start_end_markers_ok (data : series) :
  length (data_y data) = length (data_x data) →
  data_x data ≠ [] →
  ∃ x0 y0 x1 y1,
    getitem (data_x data) 0 = Ok x0 ∧ getitem (data_y data) 0 = Ok y0
    ∧ getitem (data_x data) (-1) = Ok x1 ∧ getitem (data_y data) (-1) = Ok y1
    ∧ start_end_markers data = Ok [Marker "Start" x0 y0; Marker "End" x1 y1].
Proof.
  intros Hy Hx.
  assert (Hy' : data_y data ≠ []).
  { intros He. rewrite He in Hy. destruct (data_x data); [done | discriminate]. }
  destruct (getitem_nonempty (data_x data) 0 Hx) as [x0 Hx0]; [auto|].
  destruct (getitem_nonempty (data_y data) 0 Hy') as [y0 Hy0]; [auto|].
  destruct (getitem_nonempty (data_x data) (-1) Hx) as [x1 Hx1]; [auto|].
  destruct (getitem_nonempty (data_y data) (-1) Hy') as [y1 Hy1]; [auto|].
  exists x0, y0, x1, y1. repeat split; try assumption.
  unfold start_end_markers. rewrite Hx0, Hy0, Hx1, Hy1. reflexivity.
Qed.

Lemma plot_ok (xs ys : list float) :
  length ys = length xs → plot xs ys = Ok (Line xs ys).
Proof. intros H. unfold plot. destruct (decide _); [reflexivity | lia]. Qed.

(** C4. Every arrow either renderer draws points along the stored heading
    divided by 100 and converted from degrees to radians; the heading panel
    plots the stored heading divided by 100 against time in seconds; and a
    stored heading of 9000 centidegrees is 90 degrees, pi/2 radians. *)
Theorem C4_heading_conversion (data : series) (d : nat) (len : float) :
  aligned data →
  (∃ arrs,
     arrows np_cos np_sin d len data = Ok arrs
     ∧ Forall2
         (λ i a, ∃ th x y,
            data_theta data !! i = Some th ∧ data_x data !! i = Some x
            ∧ data_y data !! i = Some y
            ∧ a = ArrowPatch
                    (Arrow x y
                       (PrimFloat.mul len
                          (np_cos (PrimFloat.mul (PrimFloat.div th 100%float)
                                     (PrimFloat.div np.pi 180%float))))
                       (PrimFloat.mul len
                          (np_sin (PrimFloat.mul (PrimFloat.div th 100%float)
                                     (PrimFloat.div np.pi 180%float))))))
         (arrow_indices d data) arrs)
  ∧ heading_panel data
    = Ok [Line (map (λ t, PrimFloat.div t 1000%float) (data_time data))
               (map (λ th, PrimFloat.div th 100%float) (data_theta data))]
  ∧ heading_degrees 9000%float = 90%float
  ∧ theta_rad 9000%float = PrimFloat.div np.pi 2%float.
Proof.
  intros (Ht & Hy & Hth & _ & _). split; [|split; [|split; reflexivity]].
  - destruct (arrows_ok d len data Hy Hth) as (arrs & Harrs & Hall).
    exists arrs. split; [exact Harrs|].
    clear Harrs.
    assert (Hlt : Forall (λ i, (i < length (data_x data))%nat) (arrow_indices d data))
      by apply range_from_lt.
    generalize dependent (arrow_indices d data). intros l Hall.
    induction Hall as [|i a l' k Ha Hrest IH]; intros Hlt; [constructor|].
    inversion Hlt as [|? ? Hi Hlt']; subst.
    constructor; [|apply IH; exact Hlt'].
    destruct (arrow_at_spec len data i Hy Hth Hi) as (th & x & y & H1 & H2 & H3 & H4).
    exists th, x, y. repeat split; try assumption. congruence.
  - unfold heading_panel, time_sec, heading_degrees.
    rewrite plot_ok by (rewrite !length_map; lia). reflexivity.
Qed.

(** C8, amended.  In both renderers the arrow loop runs at the indices
    0, s, 2s, ... below N, where s = max(1, N // 15) in the dashboard and
    s = max(1, N // 10) in the simple plot; that is ceil(N / s) arrows, one
    per index, drawn after the path line and the two markers.  The simple
    plot hands the plotting library exactly that figure, and saves and
    shows it whenever the library does not refuse. *)
Theorem C8_arrow_spacing (data : series) (save_figure : bool) :
  aligned data →
  data_x data ≠ [] →
  arrow_indices 15 data
  = (λ k, k * Nat.max 1 (length (data_x data) / 15))%nat
      <$> seq 0 ((length (data_x data) + Nat.max 1 (length (data_x data) / 15) - 1)
                 / Nat.max 1 (length (data_x data) / 15))
  ∧ arrow_indices 10 data
    = (λ k, k * Nat.max 1 (length (data_x data) / 10))%nat
        <$> seq 0 ((length (data_x data) + Nat.max 1 (length (data_x data) / 10) - 1)
                   / Nat.max 1 (length (data_x data) / 10))
  ∧ ∃ markers arrs15 arrs10,
      start_end_markers data = Ok markers
      ∧ Forall2 (λ i a, arrow_at np_cos np_sin 3%float data i = Ok a)
                (arrow_indices 15 data) arrs15
      ∧ path_panel np_cos np_sin data
        = Ok (Line (data_x data) (data_y data) :: markers ++ arrs15)
      ∧ Forall2 (λ i a, arrow_at np_cos np_sin 4%float data i = Ok a)
                (arrow_indices 10 data) arrs10
      ∧ simple_figure np_cos np_sin data
        = Ok [Line (data_x data) (data_y data) :: markers ++ arrs10]
      ∧ plot_simple_path np_cos np_sin plt data save_figure
        = (lift (draw plt [Line (data_x data) (data_y data) :: markers ++ arrs10]);;
           save_and_show plt "robot_path_simple.png" save_figure
             [Line (data_x data) (data_y data) :: markers ++ arrs10])
      ∧ (draw plt [Line (data_x data) (data_y data) :: markers ++ arrs10] = Ok tt →
         savefig plt "robot_path_simple.png"
           [Line (data_x data) (data_y data) :: markers ++ arrs10] = Ok tt →
         show plt [Line (data_x data) (data_y data) :: markers ++ arrs10] = Ok tt →
         plot_simple_path np_cos np_sin plt data save_figure
         = ((if save_figure
             then [Savefig "robot_path_simple.png"
                     [Line (data_x data) (data_y data) :: markers ++ arrs10];
                   Print (MsgImageSaved "robot_path_simple.png")]
             else [])
            ++ [Show [Line (data_x data) (data_y data) :: markers ++ arrs10]],
            Ok tt)).
Proof.
  intros (Ht & Hy & Hth & _ & _) Hx.
  split; [apply arrow_indices_spec|]. split; [apply arrow_indices_spec|].
  destruct (start_end_markers_ok data Hy Hx) as (x0 & y0 & x1 & y1 & _ & _ & _ & _ & Hm).
  destruct (arrows_ok 15 3%float data Hy Hth) as (arrs15 & H15 & Hall15).
  destruct (arrows_ok 10 4%float data Hy Hth) as (arrs10 & H10 & Hall10).
  eexists _, arrs15, arrs10. split; [exact Hm|]. split; [exact Hall15|].
  split; [|split; [exact Hall10|]].
  - unfold path_panel. rewrite (plot_ok _ _ Hy), Hm, H15. reflexivity.
  - assert (Hfig : simple_figure np_cos np_sin data
                   = Ok [Line (data_x data) (data_y data)
                         :: [Marker "Start" x0 y0; Marker "End" x1 y1] ++ arrs10]).
    { unfold simple_figure. rewrite (plot_ok _ _ Hy), Hm, H10. reflexivity. }
    split; [exact Hfig|].
    assert (Hplot : plot_simple_path np_cos np_sin plt data save_figure
                    = (lift (draw plt [Line (data_x data) (data_y data)
                                       :: [Marker "Start" x0 y0; Marker "End" x1 y1]
                                          ++ arrs10]);;
                       save_and_show plt "robot_path_simple.png" save_figure
                         [Line (data_x data) (data_y data)
                          :: [Marker "Start" x0 y0; Marker "End" x1 y1] ++ arrs10])).
    { unfold plot_simple_path. rewrite Hfig, traced_bind_lift_ok. reflexivity. }
    split; [exact Hplot|].
    intros Hdraw Hsave Hshow. rewrite Hplot, Hdraw.
    rewrite (save_and_show_accepted _ _ _ _ Hsave Hshow). reflexivity.
Qed.

Lemma mask_select_dark {A} (a : list A) (light : list Z) :
  length light = length a →
  np.mask_select a (dark_mask light) = Ok (below_threshold a light).
Proof.
  intros Hlen. unfold np.mask_select, dark_mask, below_threshold.
  rewrite length_map. destruct (decide _) as [_|Hne]; [|lia]. f_equal.
  clear Hlen. revert light. induction a as [|v a IH]; intros [|l light]; try reflexivity.
  cbn [map zip zip_with]. rewrite !filter_cons. cbn [snd].
  destruct (Z.ltb_spec l dark_threshold) as [Hlt|Hge].
  - rewrite decide_True by reflexivity. rewrite decide_True by exact Hlt.
    rewrite !fmap_cons. cbn [fst]. f_equal. apply IH.
  - rewrite decide_False by discriminate. rewrite decide_False by lia. apply IH.
Qed.

Lemma length_below_threshold {A} (a : list A) (light : list Z) :
  length light = length a →
  length (below_threshold a light) = length (filter (λ l, l < dark_threshold) light).
Proof.
  unfold below_threshold. rewrite length_fmap.
  revert light. induction a as [|v a IH]; intros [|l light] Hlen; try discriminate;
    [reflexivity|].
  cbn [zip zip_with]. rewrite !filter_cons. cbn [snd].
  destruct (decide (l < dark_threshold)); cbn [length]; rewrite IH by (simpl in Hlen; lia);
    reflexivity.
Qed.

(** C5. The thresholded panel highlights exactly the samples whose light
    value is strictly below 45; when there is none it draws the dimmed path
    and the two markers only, without an exception; and of the light values
    10, 50, 80 exactly one, the 10, is below the threshold. *)
Theorem C5_dark_threshold (data : series) :
  aligned data →
  data_x data ≠ [] →
  dark_mask (data_light data) = (λ l, bool_decide (l < 45)) <$> data_light data
  ∧ dark_points data
    = Ok (fst <$> filter (λ p, p.2 < 45) (zip (data_x data) (data_light data)),
          fst <$> filter (λ p, p.2 < 45) (zip (data_y data) (data_light data)))
  ∧ (∃ markers,
       start_end_markers data = Ok markers
       ∧ dark_panel data
         = Ok (Line (data_x data) (data_y data)
               :: match filter (λ l, l < 45) (data_light data) with
                  | [] => []
                  | _ => [Scatter (below_threshold (data_x data) (data_light data))
                                  (below_threshold (data_y data) (data_light data)) None]
                  end ++ markers))
  ∧ dark_mask [10; 50; 80] = [true; false; false]
  ∧ filter (λ l, l < 45) [10; 50; 80] = [10].
Proof.
  intros (Ht & Hy & Hth & Hl & _) Hx.
  assert (Hly : length (data_light data) = length (data_y data)) by lia.
  assert (Hpts : dark_points data
                 = Ok (below_threshold (data_x data) (data_light data),
                       below_threshold (data_y data) (data_light data))).
  { unfold dark_points. rewrite (mask_select_dark _ _ Hl), (mask_select_dark _ _ Hly).
    reflexivity. }
  split.
  { unfold dark_mask. apply list_fmap_ext. intros _ l _.
    unfold dark_threshold. destruct (Z.ltb_spec l 45).
    - rewrite bool_decide_eq_true_2; [reflexivity | assumption].
    - rewrite bool_decide_eq_false_2; [reflexivity | lia]. }
  split; [exact Hpts|]. split; [|split; reflexivity].
  destruct (start_end_markers_ok data Hy Hx) as (x0 & y0 & x1 & y1 & _ & _ & _ & _ & Hm).
  eexists. split; [exact Hm|].
  unfold dark_panel. rewrite Hpts. cbn [mbind result_bind].
  rewrite (plot_ok _ _ Hy). cbn [mbind result_bind].
  pose proof (length_below_threshold (data_x data) (data_light data) Hl) as Hnx.
  pose proof (length_below_threshold (data_y data) (data_light data) Hly) as Hny.
  change (λ l : Z, l < 45) with (λ l : Z, l < dark_threshold).
  destruct (filter (λ l, l < dark_threshold) (data_light data)) as [|l0 ls].
  - cbn [length] in Hnx. rewrite Hnx. cbn. rewrite Hm. reflexivity.
  - cbn [length] in Hnx, Hny. rewrite Hnx.
    replace (0 <? S (length ls))%nat with true by reflexivity.
    unfold scatter. rewrite decide_True by lia. cbn [mbind result_bind].
    rewrite Hm. reflexivity.
Qed.

End RendererProperties.

(** ** The top level *)

(** The exceptions a file's content can cause. *)
Lemma result_bind_raise {A B} (m : result A) (f : A → result B) (e : exn) :
  m ≫= f = Raise e → m = Raise e ∨ ∃ a, m = Ok a ∧ f a = Raise e.
Proof.
  destruct m as [a|e']; cbn; intros H; [right; eauto|].
  left. inversion H. reflexivity.
Qed.

Section MainProperties.

Variable str_to_float : string → option float.
Variable str_to_int : string → option Z.
Variable np_cos np_sin : float → float.
Variable np_mean : list Z → float.
Variable np_amin np_amax : list float → float.
Variable plt : backend.

Lemma getitem_py_float_exn (r : row) (column : string) (e : exn) :
  row_getitem r column ≫= py_float str_to_float = Raise e →
  ∀ filename, e ≠ FileNotFoundError filename.
Proof.
  unfold row_getitem, py_float.
  destruct (r !! column) as [[s|]|]; cbn; [destruct (str_to_float s)| |];
    intros H; inversion H; discriminate.
Qed.

Lemma getitem_py_int_exn (r : row) (column : string) (e : exn) :
  row_getitem r column ≫= py_int str_to_int = Raise e →
  ∀ filename, e ≠ FileNotFoundError filename.
Proof.
  unfold row_getitem, py_int.
  destruct (r !! column) as [[s|]|]; cbn; [destruct (str_to_int s)| |];
    intros H; inversion H; discriminate.
Qed.

Lemma append_row_exn (acc : series) (r : row) (e : exn) :
  append_row str_to_float str_to_int acc r = Raise e →
  ∀ filename, e ≠ FileNotFoundError filename.
Proof.
  unfold append_row. intros H.
  repeat (apply result_bind_raise in H as [H | (? & _ & H)];
          [first [exact (getitem_py_float_exn _ _ _ H)
                 | exact (getitem_py_int_exn _ _ _ H)]|]).
  discriminate.
Qed.

Lemma append_rows_exn (rows : list row) (acc : series) (e : exn) :
  append_rows str_to_float str_to_int acc rows = Raise e →
  ∀ filename, e ≠ FileNotFoundError filename.
Proof.
  revert acc. induction rows as [|r rows IH]; intros acc; cbn [append_rows];
    [discriminate|].
  intros H. apply result_bind_raise in H as [H | (acc' & _ & H)].
  - exact (append_row_exn _ _ _ H).
  - exact (IH _ H).
Qed.

(** C9. When the chosen file does not exist the load raises
    [FileNotFoundError], [main] prints the not-found message and its hint
    and returns normally.  A file that exists and can be read never raises
    [FileNotFoundError]: whatever its content raises is reported by the
    other handler, as "Error occurred", and [main] returns normally too. *)
Theorem C9_not_found_is_distinguished
    (fs : filesystem) (typed answer : string) :
  fs (chosen_filename typed) = Missing →
  read_path_data str_to_float str_to_int fs (chosen_filename typed)
  = Raise (FileNotFoundError (chosen_filename typed))
  ∧ main str_to_float str_to_int np_cos np_sin np_mean np_amin np_amax plt fs typed answer
    = ([Print MsgRule; Print MsgTitle; Print MsgRule; Input PromptFilename;
        Print (MsgReadingFile (chosen_filename typed));
        Print (MsgFileNotFound (chosen_filename typed)); Print MsgMakeSure],
       Ok tt)
  ∧ ∀ (fs' : filesystem) (records : list (list string)) (e : exn),
      fs' (chosen_filename typed) = Readable records →
      read_path_data str_to_float str_to_int fs' (chosen_filename typed) = Raise e →
      (∀ filename, e ≠ FileNotFoundError filename)
      ∧ main str_to_float str_to_int np_cos np_sin np_mean np_amin np_amax plt fs' typed answer
        = ([Print MsgRule; Print MsgTitle; Print MsgRule; Input PromptFilename;
            Print (MsgReadingFile (chosen_filename typed));
            Print (MsgErrorOccurred e)],
           Ok tt).
Proof.
  intros Hmissing.
  assert (Hread : read_path_data str_to_float str_to_int fs (chosen_filename typed)
                  = Raise (FileNotFoundError (chosen_filename typed))).
  { unfold read_path_data, open. rewrite Hmissing. reflexivity. }
  split; [exact Hread|]. split.
  - unfold main, main_try. rewrite Hread. reflexivity.
  - intros fs' records e Hfile Hraise.
    assert (Hne : ∀ filename, e ≠ FileNotFoundError filename).
    { rewrite (read_path_data_readable _ _ _ _ _ Hfile) in Hraise.
      apply result_bind_raise in Hraise as [Hraise | (acc & _ & Hraise)];
        [exact (append_rows_exn _ _ _ Hraise) | discriminate]. }
    split; [exact Hne|].
    unfold main, main_try. rewrite Hraise.
    destruct e; try reflexivity. exfalso. exact (Hne _ eq_refl).
Qed.

End MainProperties.

Lemma C9_not_found_is_distinguished_witness :
  main decimal_float decimal_int cos_sample sin_sample mean_sample amin_sample amax_sample plt_sample fs_sample "notes.txt" "n"
  = ([Print MsgRule; Print MsgTitle; Print MsgRule; Input PromptFilename;
      Print (MsgReadingFile "notes.txt");
      Print (MsgFileNotFound "notes.txt"); Print MsgMakeSure],
     Ok tt).
Proof.
  refine (proj1 (proj2 (C9_not_found_is_distinguished decimal_float decimal_int
                          cos_sample sin_sample mean_sample amin_sample amax_sample
                          plt_sample fs_sample "notes.txt" "n" _))).
  reflexivity.
Defined.

(** ** The renderers on sample data *)

Lemma C4_heading_conversion_witness :
  simple_figure cos_sample sin_sample telemetry_5rows
  = Ok [[Line [0; 1; 2; 3; 4]%float [0; 0; 0; 0; 0]%float;
               Marker "Start" 0 0; Marker "End" 4 0;
               ArrowPatch (Arrow 0 0 (PrimFloat.mul 4 (cos_sample (PrimFloat.div np.pi 2)))
                                     (PrimFloat.mul 4 (sin_sample (PrimFloat.div np.pi 2))));
               ArrowPatch (Arrow 1 0 (PrimFloat.mul 4 (cos_sample (PrimFloat.div np.pi 2)))
                                     (PrimFloat.mul 4 (sin_sample (PrimFloat.div np.pi 2))));
               ArrowPatch (Arrow 2 0 (PrimFloat.mul 4 (cos_sample (PrimFloat.div np.pi 2)))
                                     (PrimFloat.mul 4 (sin_sample (PrimFloat.div np.pi 2))));
               ArrowPatch (Arrow 3 0 (PrimFloat.mul 4 (cos_sample (PrimFloat.div np.pi 2)))
                                     (PrimFloat.mul 4 (sin_sample (PrimFloat.div np.pi 2))));
               ArrowPatch (Arrow 4 0 (PrimFloat.mul 4 (cos_sample (PrimFloat.div np.pi 2)))
                                     (PrimFloat.mul 4 (sin_sample (PrimFloat.div np.pi 2))))
             ]]
  ∧ heading_panel telemetry_5rows
    = Ok [Line (map (λ t, PrimFloat.div t 1000%float) (data_time telemetry_5rows))
               (map (λ th, PrimFloat.div th 100%float) (data_theta telemetry_5rows))].
Proof.
  split; [vm_compute; reflexivity|].
  refine (proj1 (proj2 (C4_heading_conversion cos_sample sin_sample
                          telemetry_5rows 10 4%float _))).
  apply (bool_decide_unpack _). vm_compute. exact I.
Defined.

Lemma C5_dark_threshold_witness :
  dark_points telemetry_lights = Ok ([0]%float, [0]%float)
  ∧ dark_panel telemetry_3rows
    = Ok [Line [0; 3; 3]%float [0; 4; 4]%float; Marker "Start" 0 0; Marker "End" 3 4]
  ∧ dark_mask (data_light telemetry_lights)
    = (λ l, bool_decide (l < 45)) <$> data_light telemetry_lights.
Proof.
  split; [vm_compute; reflexivity|]. split; [vm_compute; reflexivity|].
  refine (proj1 (C5_dark_threshold telemetry_lights _ _)).
  - apply (bool_decide_unpack _). vm_compute. exact I.
  - discriminate.
Defined.

(** C8, as stated, fails for the simple plot: on five samples the spacing is
    max(1, 5 // 10) = 1 and the renderer draws five arrows, not one. *)
Lemma C8_simple_arrow_count_counterexample :
  length (data_x telemetry_5rows) = 5%nat
  ∧ Nat.max 1 (length (data_x telemetry_5rows) / 10) = 1%nat
  ∧ arrow_indices 10 telemetry_5rows = [0; 1; 2; 3; 4]%nat
  ∧ ∃ arrs,
      arrows cos_sample sin_sample 10 4%float telemetry_5rows = Ok arrs
      ∧ length arrs = 5%nat
      ∧ length arrs ≠ Nat.max 1 (length (data_x telemetry_5rows) / 10).
Proof.
  split; [reflexivity|]. split; [reflexivity|]. split; [reflexivity|].
  eexists. split; [vm_compute; reflexivity|]. split; [reflexivity | discriminate].
Qed.

Lemma C8_arrow_spacing_witness :
  arrow_indices 15 telemetry_5rows
  = (λ k, k * Nat.max 1 (length (data_x telemetry_5rows) / 15))%nat
      <$> seq 0 ((length (data_x telemetry_5rows)
                  + Nat.max 1 (length (data_x telemetry_5rows) / 15) - 1)
                 / Nat.max 1 (length (data_x telemetry_5rows) / 15)).
Proof.
  refine (proj1 (C8_arrow_spacing cos_sample sin_sample plt_sample telemetry_5rows true _ _)).
  - apply (bool_decide_unpack _). vm_compute. exact I.
  - discriminate.
Defined.

(** ** Every series the program renders is aligned *)

Lemma result_bind_ok {A B} (m : result A) (f : A → result B) (b : B) :
  m ≫= f = Ok b → ∃ a, m = Ok a ∧ f a = Ok b.
Proof. destruct m as [a|e]; cbn; intros H; [eauto | discriminate]. Qed.

Section LoaderInvariant.

Variable str_to_float : string → option float.
Variable str_to_int : string → option Z.

Lemma append_row_aligned (acc acc' : series) (r : row) :
  aligned acc →
  append_row str_to_float str_to_int acc r = Ok acc' →
  aligned acc'.
Proof.
  intros (Ht & Hy & Hth & Hl & Hd) H. unfold append_row in H.
  repeat (apply result_bind_ok in H as (? & _ & H)).
  inversion H; subst; clear H. unfold aligned. cbn.
  rewrite !length_app. cbn [length]. lia.
Qed.

Lemma append_rows_aligned (rows : list row) (acc data : series) :
  aligned acc →
  append_rows str_to_float str_to_int acc rows = Ok data →
  aligned data.
Proof.
  revert acc. induction rows as [|r rows IH]; intros acc Hacc; cbn [append_rows].
  - intros H. inversion H; subst. exact Hacc.
  - intros H. apply result_bind_ok in H as (acc' & Hrow & H).
    exact (IH acc' (append_row_aligned _ _ _ Hacc Hrow) H).
Qed.

(** A load that succeeds has opened the file, appended every row and made
    arrays of the six lists. *)
Lemma read_path_data_ok_inv (fs : filesystem) (filename : string) (data : series) :
  read_path_data str_to_float str_to_int fs filename = Ok data →
  ∃ records acc,
    fs filename = Readable records
    ∧ append_rows str_to_float str_to_int empty_series (csv.DictReader records) = Ok acc
    ∧ data = to_arrays acc.
Proof.
  unfold read_path_data, open. intros H.
  destruct (fs filename) as [| |records] eqn:Hfile; cbn in H; try discriminate.
  apply result_bind_ok in H as (acc & Hacc & H).
  exists records, acc. split; [reflexivity|]. split; [exact Hacc|].
  inversion H. reflexivity.
Qed.

(** Whatever the file, a load that succeeds returns six columns of one
    length. *)
Lemma read_path_data_aligned (fs : filesystem) (filename : string) (data : series) :
  read_path_data str_to_float str_to_int fs filename = Ok data → aligned data.
Proof.
  intros H. apply read_path_data_ok_inv in H as (records & acc & _ & H & ->).
  apply to_arrays_aligned.
  eapply (append_rows_aligned _ empty_series acc); [|exact H].
  unfold aligned. cbn. lia.
Qed.

End LoaderInvariant.

(** ** The summation order is determined by the array alone *)

Lemma pairwise_split_bounds (n : nat) :
  (128 < n)%nat →
  (0 < n / 2 - (n / 2) mod 8 < n)%nat.
Proof.
  intros Hn.
  pose proof (Nat.div_mod_eq n 2) as Hdiv.
  pose proof (Nat.mod_upper_bound n 2 ltac:(lia)) as Hmod2.
  pose proof (Nat.mod_upper_bound (n / 2) 8 ltac:(lia)) as Hmod8.
  lia.
Qed.

(** Above [length a] the fuel of [pairwise_sum_rec] plays no part: the
    fallback of the exhausted case is never reached. *)
Lemma pairwise_sum_rec_fuel (f1 f2 : nat) (a : list float) :
  (length a ≤ f1)%nat → (length a ≤ f2)%nat →
  np.pairwise_sum_rec f1 a = np.pairwise_sum_rec f2 a.
Proof.
  revert f2 a. induction f1 as [|f1 IH]; intros f2 a H1 H2.
  - destruct a; [|cbn [length] in H1; lia]. destruct f2; reflexivity.
  - destruct f2 as [|f2].
    + destruct a; [reflexivity | cbn [length] in H2; lia].
    + cbn [np.pairwise_sum_rec].
      destruct (length a <? 8)%nat; [reflexivity|].
      destruct (length a <=? np.PW_BLOCKSIZE)%nat eqn:Hblock; [reflexivity|].
      apply Nat.leb_gt in Hblock. unfold np.PW_BLOCKSIZE in Hblock.
      pose proof (pairwise_split_bounds (length a) Hblock) as Hsplit.
      f_equal; apply IH; rewrite ?length_take, ?length_drop; lia.
Qed.

(** ** Segment lengths are never the negative zero *)

Section SpecFloatNonNegative.

Variables prec emax : Z.

Lemma sign_clear_binary_round_aux m e l :
  sign_clear (binary_round_aux prec emax false m e l).
Proof.
  unfold binary_round_aux.
  destruct (shr_fexp prec emax m e l) as [mrs1 e1].
  destruct (shr_fexp prec emax _ e1 loc_Exact) as [mrs2 e2].
  destruct (shr_m mrs2); [reflexivity| |exact I].
  destruct (Z.leb _ _); reflexivity.
Qed.

Lemma sign_clear_SFmul_self u : sign_clear (SFmul prec emax u u).
Proof.
  destruct u as [s|s| |s m e]; cbn; try (destruct s; reflexivity); [exact I|].
  replace (xorb s s) with false by (destruct s; reflexivity).
  apply sign_clear_binary_round_aux.
Qed.

Lemma sign_clear_SFadd u v :
  sign_clear u → sign_clear v → sign_clear (SFadd prec emax u v).
Proof.
  destruct u as [su|su| |su mu eu], v as [sv|sv| |sv mv ev]; cbn;
    intros Hu Hv; subst; try reflexivity; try exact I.
  unfold cond_Zopp. rewrite <- Pos2Z.inj_add. cbn [binary_normalize].
  unfold binary_round. destruct (shl_align _ _ (fexp _ _ _)) as [mz ez].
  apply sign_clear_binary_round_aux.
Qed.

Lemma sign_clear_SFsqrt u : sign_clear u → sign_clear (SFsqrt prec emax u).
Proof.
  destruct u as [s|s| |s m e]; cbn; intros Hu; subst; try reflexivity; try exact I.
  destruct (SFsqrt_core_binary prec emax (Z.pos m) e) as [[mz ez] lz].
  apply sign_clear_binary_round_aux.
Qed.

End SpecFloatNonNegative.

Lemma segment_sign_clear (dx dy : float) :
  sign_clear (Prim2SF (PrimFloat.sqrt (PrimFloat.add (PrimFloat.mul dx dx)
                                                     (PrimFloat.mul dy dy)))).
Proof.
  rewrite FloatAxioms.sqrt_spec, FloatAxioms.add_spec, !FloatAxioms.mul_spec.
  apply sign_clear_SFsqrt, sign_clear_SFadd; apply sign_clear_SFmul_self.
Qed.

(** Every segment length the program sums is a square root of a sum of two
    squares, so none is [-0.0]. *)
Lemma distances_sign_clear (xs ys ds : list float) :
  distances xs ys = Ok ds → Forall (λ d, sign_clear (Prim2SF d)) ds.
Proof.
  unfold distances. intros H.
  apply result_bind_ok in H as (sq & Hsq & H). inversion H; subst; clear H.
  unfold np.sqrt. apply Forall_fmap.
  assert (Hshape : Forall (λ v, ∃ dx dy, v = PrimFloat.add (PrimFloat.mul dx dx)
                                                       (PrimFloat.mul dy dy)) sq).
  { unfold np.broadcast, np.square in Hsq.
    destruct (decide _) as [_|_].
    - inversion Hsq; subst; clear Hsq.
      generalize (np.diff ys). induction (np.diff xs) as [|u us IH]; intros [|v vs];
        cbn; constructor; eauto.
    - destruct (np.diff xs) as [|u [|u' us]], (np.diff ys) as [|v [|v' vs]];
        cbn in Hsq; inversion Hsq; subst; clear Hsq;
        repeat (constructor; [eauto|]);
        try constructor;
        apply Forall_fmap, Forall_fmap, Forall_true; intros w; cbn; eauto. }
  eapply Forall_impl; [exact Hshape|].
  intros v (dx & dy & ->). cbn. apply segment_sign_clear.
Qed.

(** ** More on the loader: when it succeeds and how it fails *)

Lemma elem_of_float_columns (column : string) :
  column ∈ float_columns →
  column = "Time"%string ∨ column = "X"%string ∨ column = "Y"%string
  ∨ column = "Theta"%string.
Proof.
  unfold float_columns. intros H.
  repeat (apply elem_of_cons in H as [H | H]; [tauto|]).
  by apply elem_of_nil in H.
Qed.

Lemma elem_of_int_columns (column : string) :
  column ∈ int_columns → column = "Light"%string ∨ column = "Dist"%string.
Proof.
  unfold int_columns. intros H.
  repeat (apply elem_of_cons in H as [H | H]; [tauto|]).
  by apply elem_of_nil in H.
Qed.

Section LoaderOutcome.

Variable str_to_float : string → option float.
Variable str_to_int : string → option Z.

Lemma py_float_ok_field (r : row) (column : string) (t : float) :
  row_getitem r column ≫= py_float str_to_float = Ok t →
  float_field str_to_float column r = Some t.
Proof.
  unfold float_field, row_getitem, py_float.
  destruct (r !! column) as [[s|]|]; cbn; try discriminate.
  destruct (str_to_float s); [|discriminate]. intros H. inversion H. reflexivity.
Qed.

Lemma py_int_ok_field (r : row) (column : string) (z : Z) :
  row_getitem r column ≫= py_int str_to_int = Ok z →
  int_field str_to_int column r = Some z.
Proof.
  unfold int_field, row_getitem, py_int.
  destruct (r !! column) as [[s|]|]; cbn; try discriminate.
  destruct (str_to_int s); [|discriminate]. intros H. inversion H. reflexivity.
Qed.

(** A row is appended only when its six fields convert, and then each
    column grows by that row's number. *)
Lemma append_row_inv (acc acc' : series) (r : row) :
  append_row str_to_float str_to_int acc r = Ok acc' →
  row_complete str_to_float str_to_int r
  ∧ length (data_x acc') = S (length (data_x acc)).
Proof.
  unfold append_row. intros H.
  apply result_bind_ok in H as (t & Ht & H).
  apply result_bind_ok in H as (x & Hx & H).
  apply result_bind_ok in H as (y & Hy & H).
  apply result_bind_ok in H as (th & Hth & H).
  apply result_bind_ok in H as (l & Hl & H).
  apply result_bind_ok in H as (d & Hd & H).
  inversion H; subst; clear H.
  apply py_float_ok_field in Ht, Hx, Hy, Hth. apply py_int_ok_field in Hl, Hd.
  split.
  - split; repeat (constructor; [eauto|]); constructor.
  - cbn. rewrite length_app. cbn. lia.
Qed.

Lemma append_rows_inv (rows : list row) (acc data : series) :
  append_rows str_to_float str_to_int acc rows = Ok data →
  Forall (row_complete str_to_float str_to_int) rows
  ∧ length (data_x data) = (length (data_x acc) + length rows)%nat.
Proof.
  revert acc. induction rows as [|r rows IH]; intros acc; cbn [append_rows].
  - intros H. inversion H; subst. split; [constructor | cbn; lia].
  - intros H. apply result_bind_ok in H as (acc' & Hrow & H).
    destruct (append_row_inv _ _ _ Hrow) as [Hr Hlen].
    destruct (IH _ H) as [Hrows Hlen'].
    split; [constructor; assumption | cbn [length]; lia].
Qed.

(** X1. Whatever the file holds, a load that succeeds returns six sequences
    of one common length, the number of data rows of the file. *)
Theorem X1_loaded_columns_have_row_count
    (fs : filesystem) (filename : string) (data : series) :
  read_path_data str_to_float str_to_int fs filename = Ok data →
  ∃ records,
    fs filename = Readable records
    ∧ aligned data
    ∧ length (data_x data) = length (csv.DictReader records).
Proof.
  intros H. pose proof (read_path_data_aligned _ _ _ _ _ H) as Hal.
  apply read_path_data_ok_inv in H as (records & acc & Hfile & H & ->).
  exists records. split; [exact Hfile|]. split; [exact Hal|].
  apply append_rows_inv in H as [_ Hlen]. exact Hlen.
Qed.

(** X2. The load of a readable file succeeds exactly when every data row
    has, under each of the six columns, a field that converts to the
    column's type. *)
Theorem X2_load_succeeds_iff_rows_complete
    (fs : filesystem) (filename : string) (records : list (list string)) :
  fs filename = Readable records →
  (∃ data, read_path_data str_to_float str_to_int fs filename = Ok data)
  ↔ Forall (row_complete str_to_float str_to_int) (csv.DictReader records).
Proof.
  intros Hfile. rewrite (read_path_data_readable _ _ _ _ _ Hfile).
  split.
  - intros [data H]. apply result_bind_ok in H as (acc & H & _).
    exact (proj1 (append_rows_inv _ _ _ H)).
  - intros Hrows.
    destruct (append_rows_ok str_to_float str_to_int _ empty_series Hrows) as (acc & H & _).
    exists (to_arrays acc). rewrite H. reflexivity.
Qed.

End LoaderOutcome.

Section LoaderFailure.

Variable str_to_float : string → option float.
Variable str_to_int : string → option Z.

Lemma field_parses_float (r : row) (column : string) :
  column ∈ float_columns →
  field_parses str_to_float str_to_int r column →
  ∃ t, row_getitem r column ≫= py_float str_to_float = Ok t.
Proof.
  intros Hin [[_ [t Ht]] | [Hint _]].
  - exists t. apply getitem_float_field, Ht.
  - apply elem_of_float_columns in Hin. apply elem_of_int_columns in Hint.
    exfalso. destruct Hin as [-> | [-> | [-> | ->]]], Hint as [?|?]; discriminate.
Qed.

Lemma field_parses_int (r : row) (column : string) :
  column ∈ int_columns →
  field_parses str_to_float str_to_int r column →
  ∃ z, row_getitem r column ≫= py_int str_to_int = Ok z.
Proof.
  intros Hin [[Hfl _] | [_ [z Hz]]].
  - apply elem_of_float_columns in Hfl. apply elem_of_int_columns in Hin.
    exfalso. destruct Hfl as [-> | [-> | [-> | ->]]], Hin as [?|?]; discriminate.
  - exists z. apply getitem_int_field, Hz.
Qed.

Lemma field_fails_float (r : row) (column : string) (e : exn) :
  column ∈ float_columns →
  field_fails str_to_float str_to_int r column e →
  row_getitem r column ≫= py_float str_to_float = Raise e.
Proof.
  intros Hin Hfail. unfold row_getitem, py_float.
  destruct Hfail as [Habs | Hnone | s Hs [[_ Hbad] | [Hint _]]].
  - rewrite Habs. reflexivity.
  - rewrite Hnone. reflexivity.
  - rewrite Hs. cbn. rewrite Hbad. reflexivity.
  - apply elem_of_float_columns in Hin. apply elem_of_int_columns in Hint.
    exfalso. destruct Hin as [-> | [-> | [-> | ->]]], Hint as [?|?]; discriminate.
Qed.

Lemma field_fails_int (r : row) (column : string) (e : exn) :
  column ∈ int_columns →
  field_fails str_to_float str_to_int r column e →
  row_getitem r column ≫= py_int str_to_int = Raise e.
Proof.
  intros Hin Hfail. unfold row_getitem, py_int.
  destruct Hfail as [Habs | Hnone | s Hs [[Hfl _] | [_ Hbad]]].
  - rewrite Habs. reflexivity.
  - rewrite Hnone. reflexivity.
  - apply elem_of_float_columns in Hfl. apply elem_of_int_columns in Hin.
    exfalso. destruct Hfl as [-> | [-> | [-> | ->]]], Hin as [?|?]; discriminate.
  - rewrite Hs. cbn. rewrite Hbad. reflexivity.
Qed.

(** X3. Within a row the columns are read in the order Time, X, Y, Theta,
    Light, Dist, and the first one whose field does not convert decides the
    exception: [KeyError] naming the column when the row has no such
    column, [TypeError] when the record was too short to reach it,
    [ValueError] when its text is not a number of the column's type. *)
Theorem X3_first_failing_column_decides
    (acc : series) (r : row) (before after : list string) (column : string) (e : exn) :
  required_columns = before ++ column :: after →
  Forall (field_parses str_to_float str_to_int r) before →
  field_fails str_to_float str_to_int r column e →
  append_row str_to_float str_to_int acc r = Raise e.
Proof.
  intros Hsplit Hbefore Hfail. unfold append_row.
  unfold required_columns, float_columns, int_columns in Hsplit. cbn [app] in Hsplit.
  do 6 (destruct before as [|? before]; cbn [app] in Hsplit;
        injection Hsplit as ? Hsplit; subst;
        [ match type of Hfail with
          | field_fails _ _ _ ?c _ =>
              first [ assert (Hin : c ∈ float_columns) by set_solver;
                      rewrite (field_fails_float _ _ _ Hin Hfail)
                    | assert (Hin : c ∈ int_columns) by set_solver;
                      rewrite (field_fails_int _ _ _ Hin Hfail) ]
          end;
          reflexivity
        | apply Forall_cons in Hbefore as [Hc Hbefore];
          match type of Hc with
          | field_parses _ _ _ ?c =>
              first [ assert (Hin : c ∈ float_columns) by set_solver;
                      apply (field_parses_float _ _ Hin) in Hc as [? Hc]
                    | assert (Hin : c ∈ int_columns) by set_solver;
                      apply (field_parses_int _ _ Hin) in Hc as [? Hc] ]
          end;
          rewrite Hc; clear Hc Hin; cbn [mbind result_bind] ]).
  destruct before; discriminate.
Qed.

(** The exception of a row does not depend on what was loaded before. *)
Lemma append_row_raise_any_acc (acc acc' : series) (r : row) (e : exn) :
  append_row str_to_float str_to_int acc r = Raise e →
  append_row str_to_float str_to_int acc' r = Raise e.
Proof.
  unfold append_row.
  destruct (row_getitem r "Time" ≫= py_float str_to_float); cbn; [|tauto].
  destruct (row_getitem r "X" ≫= py_float str_to_float); cbn; [|tauto].
  destruct (row_getitem r "Y" ≫= py_float str_to_float); cbn; [|tauto].
  destruct (row_getitem r "Theta" ≫= py_float str_to_float); cbn; [|tauto].
  destruct (row_getitem r "Light" ≫= py_int str_to_int); cbn; [|tauto].
  destruct (row_getitem r "Dist" ≫= py_int str_to_int); cbn; [discriminate | tauto].
Qed.

Lemma append_rows_first_bad (good rest : list row) (bad : row) (acc : series) (e : exn) :
  Forall (row_complete str_to_float str_to_int) good →
  append_row str_to_float str_to_int empty_series bad = Raise e →
  append_rows str_to_float str_to_int acc (good ++ bad :: rest) = Raise e.
Proof.
  intros Hgood Hbad. revert acc. induction Hgood as [|r good Hr Hgood IH]; intros acc.
  - cbn [app append_rows]. rewrite (append_row_raise_any_acc _ acc _ _ Hbad). reflexivity.
  - cbn [app append_rows].
    destruct (append_rows_ok str_to_float str_to_int [r] acc) as (acc' & Hacc' & _);
      [constructor; [exact Hr | constructor]|].
    cbn [append_rows] in Hacc'.
    destruct (append_row str_to_float str_to_int acc r) as [acc''|e'];
      [|discriminate]. cbn [mbind result_bind]. apply IH.
Qed.

(** X4. The load stops at the first data row that does not convert: its
    exception is the result, whatever the rows before it held and whatever
    follows it in the file. *)
Theorem X4_first_bad_row_decides
    (fs : filesystem) (filename : string) (header : list string)
    (records good rest : list (list string)) (bad : list string) (e : exn) :
  fs filename = Readable (header :: records) →
  csv.data_records records = good ++ bad :: rest →
  Forall (row_complete str_to_float str_to_int) (csv.make_row header <$> good) →
  append_row str_to_float str_to_int empty_series (csv.make_row header bad) = Raise e →
  read_path_data str_to_float str_to_int fs filename = Raise e.
Proof.
  intros Hfile Hrec Hgood Hbad. rewrite (read_path_data_readable _ _ _ _ _ Hfile).
  cbn [csv.DictReader]. rewrite Hrec, fmap_app, fmap_cons.
  rewrite (append_rows_first_bad _ _ _ _ _ Hgood Hbad). reflexivity.
Qed.

(** Only the six columns of a row are read. *)
Lemma append_row_agree (acc : series) (r r' : row) :
  agree_on_required r r' →
  append_row str_to_float str_to_int acc r = append_row str_to_float str_to_int acc r'.
Proof.
  unfold agree_on_required, required_columns, float_columns, int_columns.
  cbn [app]. intros H.
  repeat (inversion H as [|? ? ?Hc H']; subst; clear H; rename H' into H).
  unfold append_row, row_getitem. rewrite Hc, Hc0, Hc1, Hc2, Hc3, Hc4. reflexivity.
Qed.

Lemma append_rows_agree (rows rows' : list row) (acc : series) :
  Forall2 agree_on_required rows rows' →
  append_rows str_to_float str_to_int acc rows
  = append_rows str_to_float str_to_int acc rows'.
Proof.
  intros H. revert acc. induction H as [|r r' rows rows' Hr _ IH]; intros acc;
    [reflexivity|].
  cbn [append_rows]. rewrite (append_row_agree acc r r' Hr).
  destruct (append_row str_to_float str_to_int acc r'); cbn; [apply IH | reflexivity].
Qed.

(** X5. The loader reads nothing but the six columns: two files whose data
    rows hold the same fields under Time, X, Y, Theta, Light and Dist load
    to the same result, the same sequences or the same exception, whatever
    other columns either has. *)
Theorem X5_only_six_columns_read
    (fs fs' : filesystem) (filename filename' : string)
    (records records' : list (list string)) :
  fs filename = Readable records →
  fs' filename' = Readable records' →
  Forall2 agree_on_required (csv.DictReader records) (csv.DictReader records') →
  read_path_data str_to_float str_to_int fs filename
  = read_path_data str_to_float str_to_int fs' filename'.
Proof.
  intros Hfile Hfile' Hrows.
  rewrite (read_path_data_readable _ _ _ _ _ Hfile),
          (read_path_data_readable _ _ _ _ _ Hfile').
  rewrite (append_rows_agree _ _ empty_series Hrows). reflexivity.
Qed.

End LoaderFailure.

(** ** The order of the columns *)

Lemma foldl_insert_lookup_in (kvs : list (string * string)) (d : row)
    (column v : string) :
  NoDup kvs.*1 →
  (column, v) ∈ kvs →
  foldl (λ (d : row) kv, <[kv.1 := Some kv.2]> d) d kvs !! column = Some (Some v).
Proof.
  revert d. induction kvs as [|kv kvs IH]; intros d Hnd Hin.
  - by apply elem_of_nil in Hin.
  - cbn [fmap list_fmap] in Hnd. apply NoDup_cons in Hnd as [Hfresh Hnd].
    cbn [foldl]. apply elem_of_cons in Hin as [<- | Hin].
    + cbn [fst snd].
      rewrite (foldl_insert_other (λ kv, Some kv.2)).
      * apply lookup_insert_eq.
      * apply Forall_forall. intros kv Hkv Heq. apply Hfresh.
        apply list_elem_of_fmap. exists kv. split; [symmetry; exact Heq | exact Hkv].
    + apply IH; assumption.
Qed.

Lemma foldl_insert_perm (kvs kvs' : list (string * string)) :
  NoDup kvs.*1 →
  kvs' ≡ₚ kvs →
  foldl (λ (d : row) kv, <[kv.1 := Some kv.2]> d) ∅ kvs'
  = foldl (λ (d : row) kv, <[kv.1 := Some kv.2]> d) ∅ kvs.
Proof.
  intros Hnd Hperm. apply map_eq. intros column.
  assert (Hnd' : NoDup kvs'.*1).
  { rewrite Hperm. exact Hnd. }
  destruct (decide (column ∈ kvs.*1)) as [Hin | Hout].
  - apply list_elem_of_fmap in Hin as ([c v] & Hc & Hin). cbn in Hc. subst c.
    rewrite (foldl_insert_lookup_in kvs ∅ column v Hnd Hin).
    apply foldl_insert_lookup_in; [exact Hnd'|]. rewrite Hperm. exact Hin.
  - rewrite !(foldl_insert_other (λ kv, Some kv.2)); [reflexivity| |].
    + apply Forall_forall. intros kv Hkv Heq. apply Hout.
      apply list_elem_of_fmap. exists kv. split; [symmetry; exact Heq | exact Hkv].
    + apply Forall_forall. intros kv Hkv Heq. apply Hout.
      apply list_elem_of_fmap. exists kv. split; [symmetry; exact Heq|].
      rewrite <- Hperm. exact Hkv.
Qed.

(** The same fields under the same names make the same row, in whatever
    order the columns come. *)
Lemma make_row_perm (header header' record record' : list string) :
  NoDup header →
  length record = length header →
  length record' = length header' →
  zip header' record' ≡ₚ zip header record →
  csv.make_row header' record' = csv.make_row header record.
Proof.
  intros Hnd Hlen Hlen' Hperm. unfold csv.make_row.
  rewrite Hlen, Hlen', !Nat.ltb_irrefl.
  apply foldl_insert_perm; [|exact Hperm].
  rewrite fst_zip by lia. exact Hnd.
Qed.

Lemma data_records_nonblank (records : list (list string)) :
  Forall (λ record, record ≠ []) records → csv.data_records records = records.
Proof.
  unfold csv.data_records. induction 1 as [|record records Hr _ IH]; [reflexivity|].
  rewrite filter_cons_True by exact Hr. rewrite IH. reflexivity.
Qed.

Section ColumnOrder.

Variable str_to_float : string → option float.
Variable str_to_int : string → option Z.

(** X6. The order of the columns is not significant: when the header names
    each column once and every record has a field for every column, a file
    whose columns are rearranged, header and records alike, loads to the
    same result. *)
Theorem X6_column_order_not_significant
    (fs fs' : filesystem) (filename filename' : string)
    (header header' : list string) (records records' : list (list string)) :
  fs filename = Readable (header :: records) →
  fs' filename' = Readable (header' :: records') →
  NoDup header →
  Forall2 (λ record record',
             record ≠ []
             ∧ length record = length header
             ∧ length record' = length header'
             ∧ zip header' record' ≡ₚ zip header record)
          records records' →
  read_path_data str_to_float str_to_int fs' filename'
  = read_path_data str_to_float str_to_int fs filename.
Proof.
  intros Hfile Hfile' Hnd Hrecs. unfold read_path_data, open.
  rewrite Hfile, Hfile'. cbn [mbind result_bind csv.DictReader].
  clear Hfile Hfile'.
  assert (Hnb : Forall (λ record, record ≠ []) records
                ∧ Forall (λ record, record ≠ []) records'
                ∧ csv.make_row header' <$> records' = csv.make_row header <$> records).
  { induction Hrecs as [|record record' records records' (Hne & Hl & Hl' & Hp) _ IH].
    - repeat split; constructor.
    - destruct IH as (IH1 & IH2 & IH3). split; [constructor; assumption|]. split.
      + constructor; [|assumption]. intros ->.
        apply Permutation_length in Hp. rewrite !length_zip_with in Hp.
        destruct record; [done|]. destruct header; cbn in *; [discriminate | lia].
      + rewrite !fmap_cons, IH3, (make_row_perm _ _ _ _ Hnd Hl Hl' Hp). reflexivity. }
  destruct Hnb as (Hnb & Hnb' & Hrows).
  rewrite (data_records_nonblank _ Hnb), (data_records_nonblank _ Hnb'), Hrows.
  reflexivity.
Qed.

End ColumnOrder.

(** ** The loader on sample files *)

Lemma X1_loaded_columns_have_row_count_witness :
  ∃ records,
    fs_variants "remarks.txt" = Readable records
    ∧ aligned telemetry_3rows
    ∧ length (data_x telemetry_3rows) = length (csv.DictReader records).
Proof.
  apply (X1_loaded_columns_have_row_count decimal_float decimal_int
           fs_variants "remarks.txt" telemetry_3rows).
  vm_compute. reflexivity.
Defined.

Lemma X2_load_succeeds_iff_rows_complete_witness :
  (∃ data, read_path_data decimal_float decimal_int fs_variants "bad.txt" = Ok data)
  ↔ Forall (row_complete decimal_float decimal_int) (csv.DictReader file_bad_second_row).
Proof.
  apply (X2_load_succeeds_iff_rows_complete decimal_float decimal_int
           fs_variants "bad.txt" file_bad_second_row).
  reflexivity.
Defined.

Lemma X3_first_failing_column_decides_witness :
  append_row decimal_float decimal_int empty_series
    (csv.make_row ["Time"; "X"; "Theta"; "Light"; "Dist"]%string
                  ["0"; "1"; "9000"; "50"; "10"]%string)
  = Raise (KeyError "Y").
Proof.
  apply (X3_first_failing_column_decides decimal_float decimal_int empty_series _
           ["Time"; "X"]%string ["Theta"; "Light"; "Dist"]%string "Y").
  - reflexivity.
  - repeat (constructor; [left; split; [set_solver | eexists; vm_compute; reflexivity]|]).
    constructor.
  - apply field_absent. vm_compute. reflexivity.
Defined.

Lemma X4_first_bad_row_decides_witness :
  read_path_data decimal_float decimal_int fs_variants "bad.txt" = Raise ValueError.
Proof.
  apply (X4_first_bad_row_decides decimal_float decimal_int fs_variants "bad.txt"
           (hd [] file_bad_second_row) (tail file_bad_second_row)
           [["0"; "0"; "0"; "0"; "50"; "10"]%string] [["2000"; "3"]%string]
           ["1000"; "three"; "4"; "0"; "50"; "10"]%string).
  - reflexivity.
  - vm_compute. reflexivity.
  - apply (bool_decide_unpack _). vm_compute. exact I.
  - vm_compute. reflexivity.
Defined.

Lemma X5_only_six_columns_read_witness :
  read_path_data decimal_float decimal_int fs_variants "path.txt"
  = read_path_data decimal_float decimal_int fs_variants "remarks.txt".
Proof.
  apply (X5_only_six_columns_read decimal_float decimal_int fs_variants fs_variants
           "path.txt" "remarks.txt" file_3rows file_3rows_remarks).
  - reflexivity.
  - reflexivity.
  - apply (bool_decide_unpack _). vm_compute. exact I.
Defined.

Lemma X6_column_order_not_significant_witness :
  read_path_data decimal_float decimal_int fs_variants "swapped.txt"
  = read_path_data decimal_float decimal_int fs_variants "path.txt".
Proof.
  apply (X6_column_order_not_significant decimal_float decimal_int fs_variants fs_variants
           "path.txt" "swapped.txt" (hd [] file_3rows) (hd [] file_3rows_swapped)
           (tail file_3rows) (tail file_3rows_swapped)).
  - reflexivity.
  - reflexivity.
  - apply (bool_decide_unpack _). vm_compute. exact I.
  - repeat (constructor;
            [split; [discriminate|]; split; [reflexivity|]; split; [reflexivity|];
             apply Permutation_swap|]).
    constructor.
Defined.

(** ** More on the statistics: short series, signs, a robot at rest *)

(** A property of floats that [0.0] has and addition keeps is kept by
    [np.sum], however the summation is split. *)
Section SumClosed.

Variable P : float → Prop.
Hypothesis P_zero : P 0%float.
Hypothesis P_add : ∀ a b, P a → P b → P (PrimFloat.add a b).

Lemma sum_loop_closed (a : list float) (res : float) :
  P res → Forall P a → P (np.sum_loop res a).
Proof.
  unfold np.sum_loop. intros Hres Ha. revert res Hres.
  induction Ha as [|v a Hv _ IH]; intros res Hres; [exact Hres|].
  cbn [foldl]. apply IH, P_add; assumption.
Qed.

Lemma accumulate_closed (a r : list float) (j : nat) :
  Forall P r → Forall P a → Forall P (np.accumulate r j a).
Proof.
  intros Hr Ha. revert r j Hr.
  induction Ha as [|v a Hv _ IH]; intros r j Hr; [exact Hr|].
  cbn [np.accumulate]. apply IH.
  apply Forall_alter; [exact Hr|]. intros s _ Hs. apply P_add; assumption.
Qed.

Lemma acc_closed (r : list float) (k : nat) : Forall P r → P (np.acc r k).
Proof.
  intros Hr. unfold np.acc. destruct (r !! k) as [v|] eqn:Hk; cbn; [|exact P_zero].
  exact (Forall_lookup_1 _ _ _ _ Hr Hk).
Qed.

Lemma block_sum_closed (a : list float) : Forall P a → P (np.block_sum a).
Proof.
  intros Ha. unfold np.block_sum.
  assert (Hr : Forall P (np.accumulate (take 8 a) 0
                           (drop 8 (take (length a - length a mod 8) a)))).
  { apply accumulate_closed; [apply Forall_take, Ha | apply Forall_drop, Forall_take, Ha]. }
  apply sum_loop_closed; [|apply Forall_drop, Ha].
  repeat apply P_add; apply acc_closed, Hr.
Qed.

Lemma pairwise_sum_rec_closed (fuel : nat) (a : list float) :
  Forall P a → P (np.pairwise_sum_rec fuel a).
Proof.
  revert a. induction fuel as [|fuel IH]; intros a Ha; cbn [np.pairwise_sum_rec].
  - destruct (length a <? 8)%nat; [apply sum_loop_closed; assumption|].
    destruct (length a <=? np.PW_BLOCKSIZE)%nat; apply block_sum_closed, Ha.
  - destruct (length a <? 8)%nat; [apply sum_loop_closed; assumption|].
    destruct (length a <=? np.PW_BLOCKSIZE)%nat; [apply block_sum_closed, Ha|].
    apply P_add; apply IH; [apply Forall_take, Ha | apply Forall_drop, Ha].
Qed.

Lemma sum_closed (a : list float) : Forall P a → P (np.sum a).
Proof.
  intros Ha. unfold np.sum, np.pairwise_sum.
  apply P_add; [exact P_zero | apply pairwise_sum_rec_closed, Ha].
Qed.

End SumClosed.

Lemma sign_clear_add (a b : float) :
  sign_clear (Prim2SF a) → sign_clear (Prim2SF b) →
  sign_clear (Prim2SF (PrimFloat.add a b)).
Proof. intros Ha Hb. rewrite FloatAxioms.add_spec. apply sign_clear_SFadd; assumption. Qed.

(** X8. The path length never carries a minus sign: whatever the samples,
    it is a non-negative number, [+0.0], [+inf] or a NaN, never a negative
    number and never [-0.0]. *)
Theorem X8_path_length_sign_clear (data : series) (st : statistics) :
  path_statistics data = Ok st →
  sign_clear (Prim2SF (total_distance st)).
Proof.
  unfold path_statistics. intros H.
  apply result_bind_ok in H as (ds & Hds & H).
  apply result_bind_ok in H as (t_last & _ & H).
  apply result_bind_ok in H as (t_first & _ & H).
  inversion H; subst; clear H. cbn [total_distance].
  apply (sum_closed (λ v, sign_clear (Prim2SF v))).
  - reflexivity.
  - apply sign_clear_add.
  - exact (distances_sign_clear _ _ _ Hds).
Qed.

Lemma X8_path_length_sign_clear_witness :
  sign_clear (Prim2SF (total_distance (Statistics 5%float 2%float (PyFloat 2.5%float)))).
Proof.
  apply (X8_path_length_sign_clear telemetry_3rows). vm_compute. reflexivity.
Defined.

(** The difference of a finite float and itself is [+0.0]. *)
Lemma sub_self_finite (c : float) : finite c → PrimFloat.sub c c = 0%float.
Proof.
  unfold finite. intros Hc. apply Prim2SF_inj. rewrite FloatAxioms.sub_spec.
  replace (Prim2SF 0%float) with (S754_zero false) by reflexivity.
  destruct (Prim2SF c) as [s|s| |s m e]; try contradiction.
  - destruct s; reflexivity.
  - unfold SF64sub, SFsub. rewrite Z.sub_diag. reflexivity.
Qed.

Lemma diff_constant (c : float) (a : list float) :
  finite c → Forall (λ v, v = c) a → Forall (λ v, v = 0%float) (np.diff a).
Proof.
  intros Hc Ha. induction Ha as [|u a -> Ha IH]; [constructor|].
  rewrite diff_cons. destruct Ha as [|v a' -> Ha']; [constructor|].
  constructor; [apply sub_self_finite, Hc | exact IH].
Qed.

Lemma distances_at_rest (xs ys : list float) :
  Forall (λ v, v = 0%float) (np.diff xs) →
  Forall (λ v, v = 0%float) (np.diff ys) →
  ∀ ds, distances xs ys = Ok ds → Forall (λ v, v = 0%float) ds.
Proof.
  intros Hx Hy ds H. unfold distances in H.
  apply result_bind_ok in H as (sq & Hsq & H). inversion H; subst; clear H.
  unfold np.sqrt. apply Forall_fmap.
  assert (Hzero : Forall (λ v, v = 0%float) sq).
  { unfold np.broadcast, np.square in Hsq.
    revert Hsq. generalize dependent (np.diff ys). generalize dependent (np.diff xs).
    intros dx Hdx dy Hdy.
    destruct (decide _) as [_|Hne].
    - intros Hsq. inversion Hsq; subst; clear Hsq.
      revert dy Hdy. induction Hdx as [|u dx -> _ IH]; intros dy Hdy; [constructor|].
      destruct Hdy as [|v dy -> Hdy]; [constructor|].
      cbn. constructor; [reflexivity | apply IH, Hdy].
    - intros Hsq.
      destruct dx as [|u [|u' dx]], dy as [|v [|v' dy]]; cbn in Hsq, Hne;
        try discriminate; try (exfalso; apply Hne; reflexivity);
        inversion Hsq; subst; clear Hsq;
        repeat match goal with
               | H : Forall _ (_ :: _) |- _ => apply Forall_cons in H as [-> H]
               end;
        cbn; repeat (constructor; [reflexivity|]); try constructor;
        apply Forall_fmap, Forall_fmap; (eapply Forall_impl; [eassumption|]);
        intros ? ->; reflexivity. }
  eapply Forall_impl; [exact Hzero|]. intros v ->. reflexivity.
Qed.

(** X9. A robot at rest has path length exactly 0.0: when every sample has
    the same finite x and the same finite y, the path length is [+0.0],
    however many samples there are. *)
Theorem X9_path_length_at_rest (data : series) (cx cy : float) (st : statistics) :
  finite cx → finite cy →
  Forall (λ v, v = cx) (data_x data) →
  Forall (λ v, v = cy) (data_y data) →
  path_statistics data = Ok st →
  total_distance st = 0%float.
Proof.
  intros Hcx Hcy Hx Hy H. unfold path_statistics in H.
  apply result_bind_ok in H as (ds & Hds & H).
  apply result_bind_ok in H as (t_last & _ & H).
  apply result_bind_ok in H as (t_first & _ & H).
  inversion H; subst; clear H. cbn [total_distance].
  apply (sum_closed (λ v, v = 0%float)).
  - reflexivity.
  - intros a b -> ->. reflexivity.
  - exact (distances_at_rest _ _ (diff_constant cx _ Hcx Hx) (diff_constant cy _ Hcy Hy)
             ds Hds).
Qed.

Lemma X9_path_length_at_rest_witness :
  total_distance (Statistics 0%float 2%float (PyFloat 0%float)) = 0%float.
Proof.
  apply (X9_path_length_at_rest telemetry_at_rest 5%float 7%float).
  - vm_compute. exact I.
  - vm_compute. exact I.
  - repeat constructor.
  - repeat constructor.
  - vm_compute. reflexivity.
Defined.

(** The elapsed time of a series that starts and ends at the same sample is
    [+0.0], or a NaN when the time is not finite; it is never positive. *)
Lemma elapsed_same_sample_not_positive (t : float) :
  PrimFloat.ltb 0%float (PrimFloat.div (PrimFloat.sub t t) 1000%float) = false.
Proof.
  rewrite FloatAxioms.ltb_spec, FloatAxioms.div_spec, FloatAxioms.sub_spec.
  replace (Prim2SF 0%float) with (S754_zero false) by reflexivity.
  replace (Prim2SF 1000%float) with (S754_finite false 8796093022208000 (-43))
    by reflexivity.
  destruct (Prim2SF t) as [s|s| |s m e]; try (destruct s; reflexivity); [reflexivity|].
  unfold SF64sub, SFsub. rewrite Z.sub_diag. reflexivity.
Qed.

(** X7. A series of a single sample has path length 0.0 and average speed
    the integer 0, whatever the sample: no segment is summed and the elapsed
    time, the difference of the one time stamp and itself, is not
    positive. *)
Theorem X7_single_sample_statistics
    (t x y : float) (theta : list float) (light distance : list Z) :
  path_statistics (Series [t] [x] [y] theta light distance)
  = Ok (Statistics 0%float (PrimFloat.div (PrimFloat.sub t t) 1000%float) (PyInt 0)).
Proof.
  unfold path_statistics.
  replace (distances (data_x (Series [t] [x] [y] theta light distance))
                     (data_y (Series [t] [x] [y] theta light distance)))
    with (Ok ([] : list float)) by reflexivity.
  cbn [mbind result_bind data_time].
  replace (getitem [t] (-1)) with (Ok t) by reflexivity.
  replace (getitem [t] 0) with (Ok t) by reflexivity.
  cbn [mbind result_bind].
  rewrite elapsed_same_sample_not_positive. reflexivity.
Qed.

(** ** More on the renderers: when they succeed, how many arrows *)

Lemma mapM_result_length {A B} (f : A → result B) (l : list A) (k : list B) :
  mapM f l = Ok k → length k = length l.
Proof.
  revert k. induction l as [|i l IH]; intros k; cbn [mapM].
  - intros H. inversion H. reflexivity.
  - intros H. apply result_bind_ok in H as (b & _ & H).
    apply result_bind_ok in H as (k' & Hk' & H). inversion H; subst.
    cbn [length]. rewrite (IH _ Hk'). reflexivity.
Qed.

Lemma arrow_count_bound (d n : nat) :
  (1 ≤ d)%nat →
  ((n + Nat.max 1 (n / d) - 1) / Nat.max 1 (n / d) ≤ 2 * d - 1)%nat.
Proof.
  intros Hd.
  pose proof (Nat.div_mod_eq n d) as Hdiv.
  pose proof (Nat.mod_upper_bound n d ltac:(lia)) as Hmod.
  set (q := (n / d)%nat) in *. set (r := (n mod d)%nat) in *.
  destruct (decide (q = 0%nat)) as [Hq | Hq].
  - rewrite Hq in *. cbn [Nat.max]. rewrite Nat.div_1_r. lia.
  - rewrite Nat.max_r by lia.
    apply Nat.lt_succ_r. apply Nat.Div0.div_lt_upper_bound. nia.
Qed.

Lemma min_ok (np_amin : list float → float) (a : list float) :
  a ≠ [] → np_min np_amin a = Ok (np_amin a).
Proof. destruct a; [done|]. intros _. reflexivity. Qed.

Lemma max_ok (np_amax : list float → float) (a : list float) :
  a ≠ [] → np_max np_amax a = Ok (np_amax a).
Proof. destruct a; [done|]. intros _. reflexivity. Qed.

Lemma nonempty_of_length {A B} (a : list A) (b : list B) :
  length b = length a → a ≠ [] → b ≠ [].
Proof. intros Hlen Ha ->. destruct a; [done | discriminate]. Qed.

(** Every way the end of a renderer can go: the library refuses to save,
    refuses to show, or does both. *)
Lemma save_and_show_cases
    (plt : backend) (filename : string) (save_figure : bool) (fig : list panel) :
  save_and_show plt filename save_figure fig
  = if save_figure
    then match savefig plt filename fig with
         | Raise e => ([], Raise e)
         | Ok _ =>
             match show plt fig with
             | Raise e => ([Savefig filename fig; Print (MsgImageSaved filename)], Raise e)
             | Ok _ => ([Savefig filename fig; Print (MsgImageSaved filename); Show fig],
                        Ok tt)
             end
         end
    else match show plt fig with
         | Raise e => ([], Raise e)
         | Ok _ => ([Show fig], Ok tt)
         end.
Proof.
  unfold save_and_show. destruct save_figure.
  - destruct (savefig plt filename fig) as [[]|e]; [|reflexivity].
    destruct (show plt fig) as [[]|e]; reflexivity.
  - destruct (show plt fig) as [[]|e]; reflexivity.
Qed.

Section RendererTotal.

Variable np_cos np_sin : float → float.
Variable np_mean : list Z → float.
Variable np_amin np_amax : list float → float.
Variable plt : backend.

Lemma path_panel_ok (data : series) :
  aligned data → data_x data ≠ [] → ∃ p, path_panel np_cos np_sin data = Ok p.
Proof.
  intros (_ & Hy & Hth & _ & _) Hx.
  destruct (start_end_markers_ok data Hy Hx) as (? & ? & ? & ? & _ & _ & _ & _ & Hm).
  destruct (arrows_ok np_cos np_sin 15 3%float data Hy Hth) as (arrs & Harrs & _).
  eexists. unfold path_panel. rewrite (plot_ok _ _ Hy), Hm, Harrs. reflexivity.
Qed.

Lemma light_panel_ok (data : series) :
  aligned data → data_x data ≠ [] → ∃ p, light_panel data = Ok p.
Proof.
  intros (_ & Hy & _ & Hl & _) Hx.
  destruct (start_end_markers_ok data Hy Hx) as (? & ? & ? & ? & _ & _ & _ & _ & Hm).
  eexists. unfold light_panel, scatter.
  rewrite decide_True by lia. rewrite decide_True by lia. cbn [mbind result_bind].
  rewrite Hm. reflexivity.
Qed.

Lemma dark_panel_ok (data : series) :
  aligned data → data_x data ≠ [] → ∃ p, dark_panel data = Ok p.
Proof.
  intros (_ & Hy & _ & Hl & _) Hx.
  assert (Hly : length (data_light data) = length (data_y data)) by lia.
  destruct (start_end_markers_ok data Hy Hx) as (? & ? & ? & ? & _ & _ & _ & _ & Hm).
  unfold dark_panel, dark_points.
  rewrite (mask_select_dark _ _ Hl), (mask_select_dark _ _ Hly).
  cbn [mbind result_bind]. rewrite (plot_ok _ _ Hy). cbn [mbind result_bind].
  pose proof (length_below_threshold (data_x data) (data_light data) Hl) as Hnx.
  pose proof (length_below_threshold (data_y data) (data_light data) Hly) as Hny.
  destruct (0 <? length (below_threshold (data_x data) (data_light data)))%nat.
  - unfold scatter. rewrite decide_True by lia. cbn [mbind result_bind].
    rewrite Hm. eexists. reflexivity.
  - cbn [mbind result_bind]. rewrite Hm. eexists. reflexivity.
Qed.

Lemma heading_panel_ok (data : series) :
  aligned data → ∃ p, heading_panel data = Ok p.
Proof.
  intros (Ht & _ & Hth & _ & _). eexists. unfold heading_panel, time_sec.
  rewrite plot_ok by (rewrite !length_map; lia). reflexivity.
Qed.

Lemma sensor_panel_ok (data : series) :
  aligned data → ∃ p, sensor_panel data = Ok p.
Proof.
  intros (Ht & _ & _ & Hl & Hd). eexists. unfold sensor_panel, plot_int, time_sec.
  rewrite !length_map. rewrite decide_True by lia. rewrite decide_True by lia.
  reflexivity.
Qed.

Lemma path_statistics_ok (data : series) :
  aligned data → data_x data ≠ [] → ∃ st, path_statistics data = Ok st.
Proof.
  intros (Ht & Hy & _ & _ & _) Hx.
  pose proof (nonempty_of_length _ _ Ht Hx) as Htime.
  destruct (getitem_nonempty (data_time data) (-1) Htime) as [t1 H1]; [auto|].
  destruct (getitem_nonempty (data_time data) 0 Htime) as [t0 H0]; [auto|].
  eexists. unfold path_statistics.
  rewrite (distances_aligned _ _ (eq_sym Hy)), H1, H0. reflexivity.
Qed.

Lemma stats_panel_ok (data : series) :
  aligned data → data_x data ≠ [] →
  ∃ p, stats_panel np_mean np_amin np_amax data = Ok p.
Proof.
  intros Hal Hx. pose proof Hal as (_ & Hy & _ & _ & Hd).
  pose proof (nonempty_of_length _ _ Hy Hx) as Hy'.
  pose proof (nonempty_of_length _ _ Hd Hx) as Hd'.
  destruct (path_statistics_ok data Hal Hx) as [st Hst].
  destruct (getitem_nonempty (data_distance data) (-1) Hd') as [dist Hdist]; [auto|].
  eexists. unfold stats_panel.
  rewrite Hst, (min_ok _ _ Hx), (max_ok _ _ Hx), (min_ok _ _ Hy'), (max_ok _ _ Hy'), Hdist.
  reflexivity.
Qed.

(** On an aligned series with a sample the function's own indexing,
    masking and arithmetic go through: the six panels are made. *)
Lemma dashboard_ok (data : series) :
  aligned data → data_x data ≠ [] →
  ∃ fig, length fig = 6%nat
         ∧ dashboard np_cos np_sin np_mean np_amin np_amax data = Ok fig.
Proof.
  intros Hal Hx.
  destruct (path_panel_ok data Hal Hx) as [ax1 H1].
  destruct (light_panel_ok data Hal Hx) as [ax2 H2].
  destruct (dark_panel_ok data Hal Hx) as [ax3 H3].
  destruct (heading_panel_ok data Hal) as [ax4 H4].
  destruct (sensor_panel_ok data Hal) as [ax5 H5].
  destruct (stats_panel_ok data Hal Hx) as [ax6 H6].
  exists [ax1; ax2; ax3; ax4; ax5; ax6]. split; [reflexivity|].
  unfold dashboard. rewrite H1, H2, H3, H4, H5, H6. reflexivity.
Qed.

Lemma simple_figure_ok (data : series) :
  aligned data → data_x data ≠ [] →
  ∃ fig, simple_figure np_cos np_sin data = Ok fig.
Proof.
  intros (_ & Hy & Hth & _ & _) Hx.
  destruct (start_end_markers_ok data Hy Hx) as (? & ? & ? & ? & _ & _ & _ & _ & Hm).
  destruct (arrows_ok np_cos np_sin 10 4%float data Hy Hth) as (arrs & Harrs & _).
  eexists. unfold simple_figure. rewrite (plot_ok _ _ Hy), Hm, Harrs. reflexivity.
Qed.

(** Once the panels are made, the rest is the library's. *)
Lemma plot_robot_path_figure (data : series) (save_figure : bool) (fig : list panel) :
  dashboard np_cos np_sin np_mean np_amin np_amax data = Ok fig →
  plot_robot_path np_cos np_sin np_mean np_amin np_amax plt data save_figure
  = (lift (draw plt fig);; save_and_show plt "robot_path_analysis.png" save_figure fig).
Proof.
  intros Hfig. unfold plot_robot_path. rewrite Hfig, traced_bind_lift_ok. reflexivity.
Qed.

Lemma plot_simple_path_figure (data : series) (save_figure : bool) (fig : list panel) :
  simple_figure np_cos np_sin data = Ok fig →
  plot_simple_path np_cos np_sin plt data save_figure
  = (lift (draw plt fig);; save_and_show plt "robot_path_simple.png" save_figure fig).
Proof.
  intros Hfig. unfold plot_simple_path. rewrite Hfig, traced_bind_lift_ok. reflexivity.
Qed.


(** X11. On a series without samples neither renderer draws anything: both
    raise [IndexError] at the start marker, before a figure is saved or
    shown. *)
Theorem X11_renderers_raise_on_empty_series (data : series) (save_figure : bool) :
  data_x data = [] →
  data_y data = [] →
  plot_robot_path np_cos np_sin np_mean np_amin np_amax plt data save_figure
  = ([], Raise IndexError)
  ∧ plot_simple_path np_cos np_sin plt data save_figure = ([], Raise IndexError).
Proof.
  intros Hx Hy.
  unfold plot_robot_path, dashboard, path_panel, plot_simple_path, simple_figure,
    start_end_markers.
  rewrite Hx, Hy. split; reflexivity.
Qed.

(** X12. The arrows stay sparse: whatever the number of samples the
    dashboard draws at most 29 arrows and the simple plot at most 19, and on
    a series with at least one sample each draws at least one, the first at
    the first sample. *)
Theorem X12_arrow_count_bounded (data : series) (arrs15 arrs10 : list artist) :
  arrows np_cos np_sin 15 3%float data = Ok arrs15 →
  arrows np_cos np_sin 10 4%float data = Ok arrs10 →
  (length arrs15 ≤ 29)%nat
  ∧ (length arrs10 ≤ 19)%nat
  ∧ (data_x data ≠ [] →
     head (arrow_indices 15 data) = Some 0%nat
     ∧ head (arrow_indices 10 data) = Some 0%nat
     ∧ (1 ≤ length arrs15)%nat ∧ (1 ≤ length arrs10)%nat).
Proof.
  intros H15 H10.
  apply mapM_result_length in H15, H10.
  assert (Hlen : ∀ d, length (arrow_indices d data)
                      = ((length (data_x data) + Nat.max 1 (length (data_x data) / d) - 1)
                         / Nat.max 1 (length (data_x data) / d))%nat).
  { intros d. rewrite arrow_indices_spec, length_fmap, length_seq. reflexivity. }
  rewrite H15, H10, !Hlen.
  split; [apply (arrow_count_bound 15); lia|].
  split; [apply (arrow_count_bound 10); lia|].
  intros Hx.
  assert (Hhead : ∀ d, head (arrow_indices d data) = Some 0%nat).
  { intros d. unfold arrow_indices, range.
    destruct (data_x data) as [|x xs]; [done|]. reflexivity. }
  assert (Hpos : ∀ d, (1 ≤ length (arrow_indices d data))%nat).
  { intros d. specialize (Hhead d). destruct (arrow_indices d data); [discriminate|].
    cbn. lia. }
  rewrite <- !Hlen. repeat split; auto.
Qed.

End RendererTotal.


Lemma X11_renderers_raise_on_empty_series_witness :
  plot_robot_path cos_sample sin_sample mean_sample amin_sample amax_sample plt_sample
    empty_series true
  = ([], Raise IndexError)
  ∧ plot_simple_path cos_sample sin_sample plt_sample empty_series true
    = ([], Raise IndexError).
Proof.
  apply (X11_renderers_raise_on_empty_series cos_sample sin_sample mean_sample
           amin_sample amax_sample plt_sample empty_series true); reflexivity.
Defined.

Lemma X12_arrow_count_bounded_witness :
  ∃ arrs15 arrs10,
    arrows cos_sample sin_sample 15 3%float telemetry_5rows = Ok arrs15
    ∧ arrows cos_sample sin_sample 10 4%float telemetry_5rows = Ok arrs10
    ∧ (length arrs15 ≤ 29)%nat
    ∧ (length arrs10 ≤ 19)%nat.
Proof.
  eexists _, _. split; [vm_compute; reflexivity|]. split; [vm_compute; reflexivity|].
  refine (let H := X12_arrow_count_bounded cos_sample sin_sample telemetry_5rows
                      _ _ _ _ in
          conj (proj1 H) (proj1 (proj2 H))); vm_compute; reflexivity.
Defined.

(** ** More on the top level *)

Lemma lstrip_whitespace (w s : string) :
  w ∈ whitespace → lstrip (String.append w s) = lstrip s.
Proof.
  unfold whitespace. intros Hw.
  repeat (apply elem_of_cons in Hw as [-> | Hw]; [reflexivity|]).
  by apply elem_of_nil in Hw.
Qed.

Lemma lstrip_join (pieces : list string) :
  Forall (λ w, w ∈ whitespace) pieces → lstrip (join pieces) = EmptyString.
Proof.
  induction 1 as [|w pieces Hw _ IH]; [reflexivity|].
  cbn [join foldr]. rewrite (lstrip_whitespace _ _ Hw). exact IH.
Qed.



Section MainOutcome.

Variable str_to_float : string → option float.
Variable str_to_int : string → option Z.
Variable np_cos np_sin : float → float.
Variable np_mean : list Z → float.
Variable np_amin np_amax : list float → float.
Variable plt : backend.

Lemma main_load_fails (fs : filesystem) (typed answer : string) (e : exn) :
  read_path_data str_to_float str_to_int fs (chosen_filename typed) = Raise e →
  main str_to_float str_to_int np_cos np_sin np_mean np_amin np_amax plt fs typed answer
  = (main_prelude (chosen_filename typed)
     ++ match e with
        | FileNotFoundError _ =>
            [Print (MsgFileNotFound (chosen_filename typed)); Print MsgMakeSure]
        | _ => [Print (MsgErrorOccurred e)]
        end,
     Ok tt).
Proof.
  intros Hread. unfold main, main_try. rewrite Hread. destruct e; reflexivity.
Qed.

Lemma try_except_returns {A} (body : traced A) (handler : exn → traced A) :
  (∀ e, ∃ tr a, handler e = (tr, Ok a)) →
  ∃ tr a, try_except body handler = (tr, Ok a).
Proof.
  intros Hh. destruct body as [tr [a|e]]; cbn [try_except]; [eauto|].
  destruct (Hh e) as (tr' & a & ->). eauto.
Qed.

Lemma main_except_returns (filename : string) (e : exn) :
  ∃ tr a, main_except filename e = (tr, Ok a).
Proof. destruct e; eexists _, _; reflexivity. Qed.

Lemma main_except_report (filename : string) (e : exn) :
  main_except filename e = (report filename e, Ok tt).
Proof. destruct e; reflexivity. Qed.

(** X13. [main] never lets an exception escape: whatever the file system
    holds, whatever is typed and whatever the renderers or the plotting
    library raise, it returns normally. *)
Theorem X13_main_returns_normally (fs : filesystem) (typed answer : string) :
  ∃ trace,
    main str_to_float str_to_int np_cos np_sin np_mean np_amin np_amax plt fs typed answer
    = (trace, Ok tt).
Proof.
  unfold main.
  destruct (try_except_returns
              (main_try str_to_float str_to_int np_cos np_sin np_mean np_amin np_amax plt
                 fs (chosen_filename typed) answer)
              (main_except (chosen_filename typed))
              (main_except_returns (chosen_filename typed))) as (tr & [] & Htry).
  cbn [mbind traced_bind print emit]. rewrite Htry. eexists. reflexivity.
Qed.

(** X17. When the load fails, for whatever reason, [main] draws nothing: it
    prints the banner and the name of the file, then the two not-found lines
    for [FileNotFoundError] and the "Error occurred" line for any other
    exception (a file that exists but cannot be opened included), and
    returns; no figure is saved or shown and the second prompt is never
    reached. *)
Theorem X17_failed_load_draws_nothing
    (fs : filesystem) (typed answer : string) (e : exn) :
  read_path_data str_to_float str_to_int fs (chosen_filename typed) = Raise e →
  ∃ trace,
    main str_to_float str_to_int np_cos np_sin np_mean np_amin np_amax plt fs typed answer
    = (trace, Ok tt)
    ∧ trace
      = main_prelude (chosen_filename typed)
        ++ match e with
           | FileNotFoundError _ =>
               [Print (MsgFileNotFound (chosen_filename typed)); Print MsgMakeSure]
           | _ => [Print (MsgErrorOccurred e)]
           end
    ∧ forallb (λ ev, negb (is_figure_event ev)) trace = true
    ∧ Input PromptSimplePlot ∉ trace.
Proof.
  intros Hread. eexists. split; [apply main_load_fails, Hread|].
  split; [reflexivity|]. split.
  - destruct e; reflexivity.
  - intros Hin. unfold main_prelude in Hin.
    destruct e; cbn [app] in Hin;
      repeat (apply elem_of_cons in Hin as [Heq | Hin]; [discriminate|]);
      by apply elem_of_nil in Hin.
Qed.

(** X15. A file without data rows, a header alone or nothing at all, is
    read but not drawn: [main] reports 0 data points, fails on the minimum
    of the empty x column with [ValueError], prints it as "Error occurred"
    and returns without a figure. *)
Theorem X15_no_data_rows_reported
    (fs : filesystem) (typed answer : string) (records : list (list string)) :
  fs (chosen_filename typed) = Readable records →
  csv.DictReader records = [] →
  main str_to_float str_to_int np_cos np_sin np_mean np_amin np_amax plt fs typed answer
  = (main_prelude (chosen_filename typed)
     ++ [Print (MsgRead 0); Print MsgBasicInformation; Print (MsgErrorOccurred ValueError)],
     Ok tt).
Proof.
  intros Hfile Hrows.
  assert (Hread : read_path_data str_to_float str_to_int fs (chosen_filename typed)
                  = Ok empty_series).
  { rewrite (read_path_data_readable _ _ _ _ _ Hfile), Hrows. reflexivity. }
  unfold main, main_try. rewrite Hread. reflexivity.
Qed.

(** What [main] does once the file has loaded with at least one row, in
    terms of what the two renderers do. *)
Lemma main_loaded
    (fs : filesystem) (typed answer : string) (data : series) (t_last t_first : float) :
  read_path_data str_to_float str_to_int fs (chosen_filename typed) = Ok data →
  data_x data ≠ [] →
  data_y data ≠ [] →
  getitem (data_time data) (-1) = Ok t_last →
  getitem (data_time data) 0 = Ok t_first →
  main str_to_float str_to_int np_cos np_sin np_mean np_amin np_amax plt fs typed answer
  = (main_prelude (chosen_filename typed)
     ++ basic_information np_amin np_amax data t_last t_first
     ++ match plot_robot_path np_cos np_sin np_mean np_amin np_amax plt data true with
        | (tr, Raise e) => tr ++ report (chosen_filename typed) e
        | (tr, Ok _) =>
            tr ++ Input PromptSimplePlot
               :: (if decide (lower (strip answer) = "y"%string
                              ∨ lower (strip answer) = "yes"%string)
                   then Print MsgGeneratingSimple
                        :: match plot_simple_path np_cos np_sin plt data true with
                           | (tr', Raise e) => tr' ++ report (chosen_filename typed) e
                           | (tr', Ok _) => tr' ++ [Print MsgCompleted; Print MsgRule]
                           end
                   else [Print MsgCompleted; Print MsgRule])
        end,
     Ok tt).
Proof.
  intros Hread Hx Hy Hl Hf.
  unfold main, main_try.
  rewrite Hread. cbn [mbind traced_bind lift print emit].
  rewrite (min_ok _ _ Hx). cbn [mbind traced_bind lift print emit].
  rewrite (max_ok _ _ Hx). cbn [mbind traced_bind lift print emit].
  rewrite (min_ok _ _ Hy). cbn [mbind traced_bind lift print emit].
  rewrite (max_ok _ _ Hy). cbn [mbind traced_bind lift print emit].
  rewrite Hl. cbn [mbind traced_bind lift print emit].
  rewrite Hf. cbn [mbind traced_bind lift print emit].
  destruct (plot_robot_path _ _ _ _ _ _ _ _) as [tr [[]|e]].
  - destruct (decide _) as [Hyes | Hno].
    + cbn [mbind traced_bind print emit].
      destruct (plot_simple_path _ _ _ _ _) as [tr' [[]|e]].
      * cbn [mbind traced_bind print emit try_except app main_prelude basic_information].
        rewrite <- ?app_assoc. reflexivity.
      * cbn [mbind traced_bind print emit try_except app main_prelude basic_information].
        rewrite main_except_report. rewrite <- ?app_assoc. reflexivity.
    + cbn [mbind mret traced_ret traced_bind print emit try_except app main_prelude
             basic_information].
      rewrite <- ?app_assoc. reflexivity.
  - cbn [mbind traced_bind print emit try_except app main_prelude basic_information].
    rewrite main_except_report. reflexivity.
Qed.


End MainOutcome.

(** ** The top level on sample files *)

Lemma X15_no_data_rows_reported_witness :
  main decimal_float decimal_int cos_sample sin_sample mean_sample amin_sample amax_sample
       plt_sample fs_sample "short.txt" "y"
  = (main_prelude "short.txt"
     ++ [Print (MsgRead 0); Print MsgBasicInformation; Print (MsgErrorOccurred ValueError)],
     Ok tt).
Proof.
  apply (X15_no_data_rows_reported decimal_float decimal_int cos_sample sin_sample
           mean_sample amin_sample amax_sample plt_sample fs_sample "short.txt" "y"
           file_header_only); reflexivity.
Defined.


Lemma X17_failed_load_draws_nothing_witness :
  ∃ trace,
    main decimal_float decimal_int cos_sample sin_sample mean_sample amin_sample amax_sample
         plt_sample fs_variants "locked.txt" "y" = (trace, Ok tt)
    ∧ trace = main_prelude "locked.txt" ++ [Print (MsgErrorOccurred (OSError "locked.txt"))]
    ∧ forallb (λ ev, negb (is_figure_event ev)) trace = true
    ∧ Input PromptSimplePlot ∉ trace.
Proof.
  apply (X17_failed_load_draws_nothing decimal_float decimal_int cos_sample sin_sample
           mean_sample amin_sample amax_sample plt_sample fs_variants "locked.txt" "y"
           (OSError "locked.txt")).
  reflexivity.
Defined.

(** ** The average speed carries no minus sign *)

Lemma sign_clear_SFdiv prec emax (u v : spec_float) :
  sign_clear u → sign_clear v → sign_clear (SFdiv prec emax u v).
Proof.
  destruct u as [su|su| |su mu eu], v as [sv|sv| |sv mv ev]; cbn;
    intros Hu Hv; subst; try reflexivity; try exact I.
  destruct (SFdiv_core_binary prec emax (Z.pos mu) eu (Z.pos mv) ev) as [[mz ez] lz].
  apply sign_clear_binary_round_aux.
Qed.

Lemma positive_sign_clear (t : float) :
  PrimFloat.ltb 0%float t = true → sign_clear (Prim2SF t).
Proof.
  rewrite FloatAxioms.ltb_spec.
  replace (Prim2SF 0%float) with (S754_zero false) by reflexivity.
  unfold SFltb, SFcompare.
  destruct (Prim2SF t) as [s|s| |s m e]; try discriminate; try (intros _; exact I);
    destruct s; try discriminate; reflexivity.
Qed.

(** X18. The average speed is never negative: it is the integer 0, or the
    quotient of a path length and an elapsed time that both carry no minus
    sign, so a non-negative number, [+inf] or a NaN. *)
Theorem X18_average_speed_sign_clear (data : series) (st : statistics) :
  path_statistics data = Ok st →
  match avg_speed st with
  | PyInt z => z = 0
  | PyFloat f => sign_clear (Prim2SF f)
  end.
Proof.
  unfold path_statistics. intros H.
  apply result_bind_ok in H as (ds & Hds & H).
  apply result_bind_ok in H as (t_last & _ & H).
  apply result_bind_ok in H as (t_first & _ & H).
  inversion H; subst; clear H. cbn [avg_speed].
  destruct (PrimFloat.ltb 0 _) eqn:Hpos; [|reflexivity].
  rewrite FloatAxioms.div_spec. apply sign_clear_SFdiv.
  - apply (sum_closed (λ v, sign_clear (Prim2SF v))).
    + reflexivity.
    + apply sign_clear_add.
    + exact (distances_sign_clear _ _ _ Hds).
  - apply positive_sign_clear, Hpos.
Qed.

Lemma X18_average_speed_sign_clear_witness :
  match avg_speed (Statistics 5%float 2%float (PyFloat 2.5%float)) with
  | PyInt z => z = 0
  | PyFloat f => sign_clear (Prim2SF f)
  end.
Proof.
  apply (X18_average_speed_sign_clear telemetry_3rows). vm_compute. reflexivity.
Defined.
